(** * pinax-api: the Resource mapping layer ([pinax/api/resource.py])

    A shallow embedding of [Resource.populate], [Resource.get_identifier],
    [Resource.get_self_link], [Resource.serializable] and [resolve_include],
    together with the properties the specification states about them.

    Python objects live in a heap of attribute dictionaries; every operation
    is a function from a state to a result (a value or a raised exception)
    and the state left behind, so that mutations made before an exception
    stay visible, as they do in Python. *)

From Stdlib Require Import ZArith String Ascii List Sorted Permutation.
From stdpp Require Import base decidable option list gmap strings pretty sorting.

Set Warnings "-register-all".

Local Open Scope string_scope.
Local Open Scope Z_scope.
Local Open Scope list_scope.

(** ** Python values, exceptions and results *)

Definition loc := positive.

(** The values an attribute of a domain object can hold.  A related manager
    (the value of a to-many accessor) is the list of its member objects; a
    function value names the [populate] frame its closure was made in. *)
Inductive value :=
  | VNone
  | VInt (z : Z)
  | VStr (s : string)
  | VRef (l : loc)
  | VManager (members : list loc)
  | VFunc (fid : nat).

Global Instance value_eq_dec : EqDecision value.
Proof. solve_decision. Defined.

Inductive exn :=
  | KeyError (k : string)
  | AttributeError (name : string)
  | NameError (name : string)
  | TypeError
  | FieldDoesNotExist (k : string)
  | ValidationError (message_dict : list (string * string))
  | SerializationError (msg : string)
  | RuntimeError (msg : string)
  | RecursionError
  | NoReverseMatch.

Global Instance exn_eq_dec : EqDecision exn.
Proof. solve_decision. Defined.

Inductive result (A : Type) :=
  | Ok (a : A)
  | Raise (e : exn).
Arguments Ok {A} a.
Arguments Raise {A} e.

(** Computations over a mutable state [S] that may raise.  The state comes
    back in both cases: Python does not undo mutations when it unwinds. *)
Definition M (S A : Type) : Type := S -> result A * S.

Definition ret {S A} (a : A) : M S A := fun s => (Ok a, s).
Definition raise {S A} (e : exn) : M S A := fun s => (Raise e, s).
Definition bind {S A B} (c : M S A) (k : A -> M S B) : M S B :=
  fun s => match c s with
           | (Ok a, s') => k a s'
           | (Raise e, s') => (Raise e, s')
           end.
Definition lift {S A} (r : result A) : M S A := fun s => (r, s).
Definition gets {S A} (f : S -> A) : M S A := fun s => (Ok (f s), s).
Definition modify {S} (f : S -> S) : M S unit := fun s => (Ok tt, f s).

Declare Scope py_scope.
Delimit Scope py_scope with py.
Notation "'let*' x ':=' c 'in' k" := (bind c (fun x => k))
  (at level 10, x pattern, c at level 100, k at level 200) : py_scope.
Notation "c ';;' k" := (bind c (fun _ => k))
  (at level 100, k at level 200, right associativity) : py_scope.
Local Open Scope py_scope.

(** [for x in xs: body(x)] *)
Fixpoint for_each {S A} (xs : list A) (body : A -> M S unit) : M S unit :=
  match xs with
  | [] => ret tt
  | x :: xs' => body x ;; for_each xs' body
  end.

(** ** Insertion-ordered dictionaries

    A Python 3 [dict] keeps its keys in insertion order; assigning to a key
    that is present replaces the value where it stands. *)
Definition dict (A : Type) := list (string * A).

Fixpoint dict_get {A} (k : string) (d : dict A) : option A :=
  match d with
  | [] => None
  | (k', a) :: d' => if decide (k = k') then Some a else dict_get k d'
  end.

Fixpoint dict_set {A} (k : string) (a : A) (d : dict A) : dict A :=
  match d with
  | [] => [(k, a)]
  | (k', a') :: d' =>
      if decide (k = k') then (k, a) :: d' else (k', a') :: dict_set k a d'
  end.

Definition dict_keys {A} (d : dict A) : list string := map fst d.

(** [d.update(e)] *)
Definition dict_update {A} (d e : dict A) : dict A :=
  fold_left (fun acc kv => dict_set (fst kv) (snd kv) acc) e d.

(** ** Builtins: [str], [sorted], [", ".join], [str.split] *)

(** [str(v)].  The text of a model instance, a manager or a function is
    whatever their class prints; a fixed text stands for it. *)
Definition str (v : value) : string :=
  match v with
  | VNone => "None"
  | VInt z => pretty z
  | VStr s => s
  | VRef _ => "<object>"
  | VManager _ => "<manager>"
  | VFunc _ => "<function>"
  end.

Definition str_le (a b : string) : Prop := String.leb a b = true.

Global Instance str_le_dec : RelDecision str_le.
Proof. intros a b. unfold str_le. apply _. Defined.

Global Instance str_le_total : Total str_le.
Proof. intros a b. apply String.leb_total. Qed.

(** [sorted(xs)] on strings: code-point order. *)
Definition sorted (xs : list string) : list string := merge_sort str_le xs.

(** [sep.join(xs)] *)
Fixpoint join (sep : string) (xs : list string) : string :=
  match xs with
  | [] => ""
  | [x] => x
  | x :: xs' => x +:+ sep +:+ join sep xs'
  end.

(** [s.split(".", 1)]: the text before the first dot and, when there is a
    dot, the text after it. *)
Fixpoint split_dot (s : string) : string * option string :=
  match s with
  | EmptyString => ("", None)
  | String c s' =>
      if decide (c = "."%char) then ("", Some s')
      else let '(h, r) := split_dot s' in (String c h, r)
  end.

(** ** The heap of domain objects and the frames of [populate] *)

(** The variables of one [populate] call that its nested [save] function
    refers to.  A Python closure reads the variable, not the value it had
    when the function was made, so the frame outlives the call. *)
Record frame := Frame {
  fr_obj : loc;
  fr_accessor_name : option string;
  fr_qs : option (list loc) }.

Record state := State {
  heap : gmap loc (gmap string value);
  frames : list frame }.

Definition read_attr (h : gmap loc (gmap string value)) (v : value) (a : string)
  : result value :=
  match v with
  | VRef l =>
      match h !! l with
      | Some o => match o !! a with
                  | Some x => Ok x
                  | None => Raise (AttributeError a)
                  end
      | None => Raise (AttributeError a)
      end
  | _ => Raise (AttributeError a)
  end.

Arguments read_attr : simpl never.

(** [getattr(v, a)] *)
Definition getattr (v : value) (a : string) : M state value :=
  fun st => (read_attr (heap st) v a, st).

Definition write_attr (l : loc) (a : string) (v : value)
  (h : gmap loc (gmap string value)) : gmap loc (gmap string value) :=
  <[l := <[a := v]> (default ∅ (h !! l))]> h.

(** [setattr(obj, a, v)] *)
Definition setattr (l : loc) (a : string) (v : value) : M state unit :=
  modify (fun st => State (write_attr l a v (heap st)) (frames st)).

(** A new object with the given attributes. *)
Definition alloc (o : gmap string value) : M state loc :=
  fun st => let l := fresh (dom (heap st)) in
            (Ok l, State (<[l := o]> (heap st)) (frames st)).

Definition new_frame (obj : loc) : M state nat :=
  fun st => (Ok (length (frames st)),
             State (heap st) (frames st ++ [Frame obj None None])).

Definition set_accessor_name (fid : nat) (a : string) : M state unit :=
  modify (fun st =>
    State (heap st)
          (alter (fun fr => Frame (fr_obj fr) (Some a) (fr_qs fr)) fid (frames st))).

Definition set_qs (fid : nat) (qs : list loc) : M state unit :=
  modify (fun st =>
    State (heap st)
          (alter (fun fr => Frame (fr_obj fr) (fr_accessor_name fr) (Some qs)) fid (frames st))).

(** ** The schema: models, resource classes, relationships, viewsets *)

(** What the code reads off a Django model field [f]: [f.name], [f.attname],
    the model [f.rel] points to ([f.rel.to], [f.rel.model]; [None] when the
    field has no [rel]) and, when [f] is one of [_meta.related_objects],
    [f.field.model] with [f.get_accessor_name()]. *)
Record field := Field {
  f_name : string;
  f_attname : string;
  f_rel : option string;
  f_related_object : option (string * string) }.

(** [cls.model]: [_meta.get_field] as a table and the attributes a freshly
    constructed instance starts with. *)
Record model_meta := Model {
  model_name : string;
  get_field : string -> option field;
  model_init : gmap string value }.

Record url_conf := Url {
  base_name : string;
  lookup_field : string }.

(** A [Resource] subclass.  [id_attr] is the attribute of the wrapped object
    that the subclass's [id] property returns. *)
Inductive resource_class : Type := ResourceClass {
  api_type : string;
  model : model_meta;
  attributes : list string;
  relationships : dict relationship;
  bound_viewset : option viewset;
  id_attr : string }
with relationship : Type := Relationship {
  resource_class_of : resource_class;
  collection : bool;
  attr : option string }
with viewset : Type := Viewset {
  parent : option resource_class;
  url : url_conf }.

(** [cls(obj)] *)
Record Resource := mkResource {
  r_cls : resource_class;
  r_obj : value }.

(** ** The collaborators outside this module *)

(** The default managers of the models: [get(pk=...)], which finds an
    object or raises [ObjectDoesNotExist] ([None] here), and
    [filter(pk__in=...)]. *)
Class Store := {
  get_by_pk : string -> value -> option loc;
  filter_pk_in : string -> gset string -> list loc }.

(** [django.core.urlresolvers.reverse]. *)
Class Router := {
  reverse : string -> dict string -> option string }.

(** The request, as far as the code uses it. *)
Record request := Request {
  build_absolute_uri : string -> string }.

(** ** Incoming payloads and outgoing documents *)

Record identifier := Identifier {
  id_type : string;
  id_id : string }.

(** The ["data"] member of a relationship payload: one identifier or a list
    of them. *)
Inductive rel_data :=
  | DataOne (i : identifier)
  | DataMany (l : list identifier).

(** [data]: the ["attributes"] key is read with [data["attributes"]], the
    ["relationships"] key with [data.get("relationships", {})]. *)
Record payload := Payload {
  p_attributes : option (dict value);
  p_relationships : option (dict rel_data) }.

Inductive doc :=
  | DVal (v : value)
  | DList (l : list doc)
  | DDict (d : list (string * doc)).

(** ** [Resource.populate] *)

Definition lookup_field_of (cls : resource_class) (k : string) : M state field :=
  match get_field (model cls) k with
  | Some f => ret f
  | None => raise (FieldDoesNotExist k)
  end.

(** The body of [for k, v in data["attributes"].items()]. *)
Definition populate_attribute (cls : resource_class) (obj : loc)
  (kv : string * value) : M state unit :=
  let* f := lookup_field_of cls (fst kv) in
  setattr obj (f_attname f) (snd kv).

(** The double quote, as a string. *)
Definition dquote : string := String "034"%char EmptyString.

(** ['Relationship "{}" object ID {} does not exist'.format(k, i)] *)
Definition one_message (k i : string) : string :=
  "Relationship " +:+ dquote +:+ k +:+ dquote +:+ " object ID " +:+ i
    +:+ " does not exist".

(** ['Relationship "{}" object IDs {} do not exist'.format(k, ", ".join(missing))] *)
Definition many_message (k : string) (missing : list string) : string :=
  "Relationship " +:+ dquote +:+ k +:+ dquote +:+ " object IDs "
    +:+ join ", " missing +:+ " do not exist".

(** [map(attrgetter("id"), qs)] *)
Fixpoint read_ids (h : gmap loc (gmap string value)) (qs : list loc)
  : result (list value) :=
  match qs with
  | [] => Ok []
  | o :: qs' =>
      match read_attr h (VRef o) "id" with
      | Ok i => match read_ids h qs' with
                | Ok ids => Ok (i :: ids)
                | Raise e => Raise e
                end
      | Raise e => Raise e
      end
  end.

(** [set(map(attrgetter("id"), qs))], as the list of the ids read. *)
Definition found_ids (qs : list loc) : M state (list value) :=
  fun st => (read_ids (heap st) qs, st).

(** [given.difference(found)] *)
Definition difference (given : gset string) (found : list value) : gset string :=
  filter (fun s => VStr s ∉ found) given.

(** [rel.attr if rel.attr is not None else k] *)
Definition attr_of (k : string) (rel : relationship) : string :=
  match attr rel with
  | Some a => a
  | None => k
  end.

(** The model on the other side of a to-many field and the name of the
    accessor for it: [f.field.model] and [f.get_accessor_name()] for one of
    [_meta.related_objects], [f.rel.model] and [f.name] otherwise. *)
Definition related_of (f : field) : option (string * string) :=
  match f_related_object f with
  | Some (m, a) => Some (m, a)
  | None => match f_rel f with
            | Some m => Some (m, f_name f)
            | None => None
            end
  end.

(** The body of [for k, v in data.get("relationships", {}).items()], in the
    frame [fid] of the running call. *)
Definition populate_relationship `{Store} (cls : resource_class) (fid : nat)
  (obj : loc) (kv : string * rel_data) : M state unit :=
  let k := fst kv in
  let v := snd kv in
  let* rel := match dict_get k (relationships cls) with
              | Some rel => ret rel
              | None => raise (KeyError k)
              end in
  let attr := attr_of k rel in
  if negb (collection rel) then
    let* f := lookup_field_of cls attr in
    let* to := match f_rel f with
               | Some m => ret m
               | None => raise (AttributeError "to")
               end in
    let* i := match v with
              | DataOne i => ret (id_id i)
              | DataMany _ => raise TypeError
              end in
    match get_by_pk to (VStr i) with
    | None => raise (ValidationError [(k, one_message k i)])
    | Some o => setattr obj (f_attname f) (VRef o)
    end
  else
    let* given := match v with
                  | DataMany l => ret (list_to_set (map id_id l) : gset string)
                  | DataOne _ => raise TypeError
                  end in
    let* f := lookup_field_of cls attr in
    let* ra := match related_of f with
               | Some ra => ret ra
               | None => raise (AttributeError "model")
               end in
    set_accessor_name fid (snd ra) ;;
    let qs := filter_pk_in (fst ra) given in
    set_qs fid qs ;;
    let* found := found_ids qs in
    let missing := difference given found in
    if decide (missing = ∅) then setattr obj "save_relationships" (VFunc fid)
    else raise (ValidationError [(k, many_message k (sorted (elements missing)))]).

(** The frames after the to-many step has bound [accessor_name] and [qs]. *)
Definition bound_frames (fid : nat) (a : string) (qs : list loc)
  (frs : list frame) : list frame :=
  alter (fun fr => Frame (fr_obj fr) (fr_accessor_name fr) (Some qs)) fid
    (alter (fun fr => Frame (fr_obj fr) (Some a) (fr_qs fr)) fid frs).

(** The attribute a relationship step may assign on the owning object. *)
Definition written_by (cls : resource_class) (kv : string * rel_data)
  : option string :=
  match dict_get (fst kv) (relationships cls) with
  | None => None
  | Some rel =>
      if collection rel then Some "save_relationships"
      else match get_field (model cls) (attr_of (fst kv) rel) with
           | Some f => Some (f_attname f)
           | None => None
           end
  end.

(** Up to [r = cls(obj)]: the object, the attribute loop, and the frame the
    relationship loop runs in. *)
Definition populate_begin (cls : resource_class) (data : payload)
  (obj : option loc) : M state (loc * nat) :=
  let* obj := match obj with
              | Some o => ret o
              | None => alloc (model_init (model cls))
              end in
  let* fid := new_frame obj in
  let* attrs := match p_attributes data with
                | Some a => ret a
                | None => raise (KeyError "attributes")
                end in
  for_each attrs (populate_attribute cls obj) ;;
  ret (obj, fid).

Definition populate `{Store} (cls : resource_class) (data : payload)
  (obj : option loc) : M state Resource :=
  let* started := populate_begin cls data obj in
  for_each (default [] (p_relationships data))
           (populate_relationship cls (snd started) (fst started)) ;;
  ret (mkResource cls (VRef (fst started))).

(** Modelled from the spec: the collection accessor's [add], which is not in
    this module, appends the targets to the parent's collection. *)
Definition manager_add (members qs : list loc) : list loc := members ++ qs.

(** The nested [save(self, parent=None)] of the frame [fid]. *)
Definition save (fid : nat) (self parent : value) : M state unit :=
  let* fr := fun st => match frames st !! fid with
                       | Some fr => (Ok fr, st)
                       | None => (Raise (NameError "obj"), st)
                       end in
  let parent := match parent with VNone => VRef (fr_obj fr) | _ => parent end in
  let* accessor_name := match fr_accessor_name fr with
                        | Some a => ret a
                        | None => raise (NameError "accessor_name")
                        end in
  let* m := getattr parent accessor_name in
  let* qs := match fr_qs fr with
             | Some qs => ret qs
             | None => raise (NameError "qs")
             end in
  match m, parent with
  | VManager members, VRef p =>
      setattr p accessor_name (VManager (manager_add members qs))
  | _, _ => raise (AttributeError "add")
  end.

(** [obj.save_relationships(self, parent)] *)
Definition call_save_relationships (obj : loc) (self parent : value)
  : M state unit :=
  let* f := getattr (VRef obj) "save_relationships" in
  match f with
  | VFunc fid => save fid self parent
  | _ => raise TypeError
  end.

(** ** [Resource.get_identifier] and [Resource.get_self_link] *)

Definition rbind {A B} (r : result A) (k : A -> result B) : result B :=
  match r with
  | Ok a => k a
  | Raise e => Raise e
  end.
Notation "'let?' x ':=' r 'in' k" := (rbind r (fun x => k))
  (at level 10, x pattern, r at level 100, k at level 200) : py_scope.

(** [self.id], the property of the subclass. *)
Definition resource_id (h : gmap loc (gmap string value)) (self : Resource)
  : result value :=
  read_attr h (r_obj self) (id_attr (r_cls self)).

Definition get_identifier (h : gmap loc (gmap string value)) (self : Resource)
  : result (dict doc) :=
  let? i := resource_id h self in
  Ok [("type", DVal (VStr (api_type (r_cls self))));
      ("id", DVal (VStr (str i)))].

Definition unbound_message : string :=
  "cannot generate link without being bound to a viewset".

(** The nested [resolve(r)].  Its state is the pair of the variables
    [kwargs] and [obj] of the enclosing [get_self_link]. *)
Fixpoint resolve (h : gmap loc (gmap string value)) (self_obj : value)
  (r : resource_class) : M (dict string * value) unit :=
  match bound_viewset r with
  | None => raise (RuntimeError unbound_message)
  | Some viewset =>
      match parent viewset with
      | Some p => resolve h self_obj p
      | None => ret tt
      end ;;
      let* obj := gets snd in
      let* obj := match obj with
                  | VNone => ret self_obj
                  | _ => lift (read_attr h obj (lookup_field (url viewset)))
                  end in
      modify (fun s => (fst s, obj)) ;;
      let* i := lift (resource_id h (mkResource r obj)) in
      modify (fun s => (dict_set (lookup_field (url viewset)) (str i) (fst s), snd s))
  end.

Definition get_self_link `{Router} (h : gmap loc (gmap string value))
  (self : Resource) (req : option request) : result string :=
  match resolve h (r_obj self) (r_cls self) ([], VNone) with
  | (Raise e, _) => Raise e
  | (Ok _, (kwargs, _)) =>
      match bound_viewset (r_cls self) with
      | None => Raise (AttributeError "url")
      | Some viewset =>
          match reverse (base_name (url viewset) +:+ "-detail") kwargs with
          | None => Raise NoReverseMatch
          | Some u =>
              match req with
              | Some rq => Ok (build_absolute_uri rq u)
              | None => Ok u
              end
          end
      end
  end.

(** What [resolve(r)] does at one level once the parent levels are done. *)
Definition resolve_level (h : gmap loc (gmap string value)) (self_obj : value)
  (r : resource_class) (viewset : viewset) : M (dict string * value) unit :=
  let* obj := gets snd in
  let* obj := match obj with
              | VNone => ret self_obj
              | _ => lift (read_attr h obj (lookup_field (url viewset)))
              end in
  modify (fun s => (fst s, obj)) ;;
  let* i := lift (resource_id h (mkResource r obj)) in
  modify (fun s => (dict_set (lookup_field (url viewset)) (str i) (fst s), snd s)).

(** Every class from [r] up to the root of its viewsets is bound. *)
Fixpoint chain_bound (r : resource_class) : bool :=
  match bound_viewset r with
  | None => false
  | Some viewset =>
      match parent viewset with
      | Some p => chain_bound p
      | None => true
      end
  end.

(** The bound classes from the root down to [r], each with its viewset. *)
Fixpoint chain (r : resource_class) : list (resource_class * viewset) :=
  match bound_viewset r with
  | None => []
  | Some viewset =>
      match parent viewset with
      | Some p => chain p
      | None => []
      end ++ [(r, viewset)]
  end.

(** ** [resolve_include] *)

(** Modelled from the spec: the include set is not in this module.  It
    carries the requested paths and accumulates resources keyed by
    Identifier; adding a resource whose identifier is present does nothing,
    and the members stay in insertion order. *)
Record Included := mkIncluded {
  paths : list string;
  members : list Resource }.

(** Modelled from the spec: the key of a member, its Identifier (type and
    id as a string); a resource whose id cannot be read has no key. *)
Definition identifier_key (h : gmap loc (gmap string value)) (r : Resource)
  : option (string * string) :=
  match resource_id h r with
  | Ok i => Some (api_type (r_cls r), str i)
  | Raise _ => None
  end.

(** Modelled from the spec: [included.add(resource)], idempotent on the
    Identifier, insertion order kept. *)
Definition included_add (h : gmap loc (gmap string value)) (r : Resource)
  : M Included unit :=
  modify (fun inc =>
    if decide (identifier_key h r ∈ map (identifier_key h) (members inc))
    then inc
    else mkIncluded (paths inc) (members inc ++ [r])).

(** The [path] argument: a string, or the empty list the code passes on
    when the path had no dot. *)
Inductive path_arg :=
  | PathStr (s : string)
  | PathEmptyList.

Definition path_size (p : path_arg) : nat :=
  match p with
  | PathStr s => S (String.length s)
  | PathEmptyList => 0
  end.

(** The [rest] the next call gets: the text after the first dot, or the
    empty list. *)
Definition rest_of (s : string) : path_arg :=
  match snd (split_dot s) with
  | Some rest => PathStr rest
  | None => PathEmptyList
  end.

Definition undeclared_message (head : string) : string :=
  "'" +:+ head +:+ "' is not a valid relationship to include".

(** [resolve_include] with the depth of the Python call stack bounded by
    [depth]. *)
Fixpoint resolve_include_at (depth : nat) (h : gmap loc (gmap string value))
  (resource : Resource) (path : path_arg) : M Included unit :=
  match depth with
  | O => raise RecursionError
  | S depth' =>
      let* hr := match path with
                 | PathStr s =>
                     match split_dot s with
                     | (head, Some rest) => ret (head, PathStr rest)
                     | (head, None) => ret (head, PathEmptyList)
                     end
                 | PathEmptyList => raise (AttributeError "split")
                 end in
      let head := fst hr in
      let rest := snd hr in
      match dict_get head (relationships (r_cls resource)) with
      | None =>
          raise (SerializationError (undeclared_message head))
      | Some rel =>
          let* m := lift (read_attr h (r_obj resource) head) in
          match m with
          | VManager objs =>
              for_each objs (fun obj =>
                resolve_include_at depth' h resource rest ;;
                included_add h (mkResource (resource_class_of rel) (VRef obj)))
          | _ => raise (AttributeError "all")
          end
      end
  end.

(** A path of [n] characters never nests deeper than [n + 2] calls. *)
Definition resolve_include (h : gmap loc (gmap string value))
  (resource : Resource) (path : path_arg) : M Included unit :=
  resolve_include_at (S (path_size path)) h resource path.

(** ** [Resource.serializable] *)

Fixpoint serializable_attributes (h : gmap loc (gmap string value))
  (obj : value) (names : list string) (attributes : dict doc)
  : result (dict doc) :=
  match names with
  | [] => Ok attributes
  | attr :: names' =>
      let? v := read_attr h obj attr in
      serializable_attributes h obj names' (dict_set attr (DVal v) attributes)
  end.

Fixpoint identifiers_of (h : gmap loc (gmap string value))
  (cls : resource_class) (qs : list loc) : result (list doc) :=
  match qs with
  | [] => Ok []
  | v :: qs' =>
      let? i := get_identifier h (mkResource cls (VRef v)) in
      let? ids := identifiers_of h cls qs' in
      Ok (DDict i :: ids)
  end.

(** The [rel_obj] one pass of the relationship loop leaves under [name]. *)
Definition serializable_relationship (h : gmap loc (gmap string value))
  (obj : value) (name : string) (rel : relationship) : result doc :=
  if collection rel then
    let? m := read_attr h obj name in
    match m with
    | VManager qs =>
        let? data := identifiers_of h (resource_class_of rel) qs in
        Ok (DDict [("data", DList data)])
    | _ => Raise (AttributeError "all")
    end
  else
    let? v := read_attr h obj name in
    match v with
    | VNone => Ok (DDict [("data", DVal VNone)])
    | _ =>
        let? i := get_identifier h (mkResource (resource_class_of rel) v) in
        Ok (DDict [("data", DDict i)])
    end.

(** The relationship loop.  The keys of [self.relationships] are distinct,
    so [setdefault] always starts from a new [rel_obj]. *)
Fixpoint serializable_relationships (h : gmap loc (gmap string value))
  (obj : value) (rels : dict relationship) (relationships : dict doc)
  : result (dict doc) :=
  match rels with
  | [] => Ok relationships
  | (name, rel) :: rels' =>
      let? rel_obj := serializable_relationship h obj name rel in
      serializable_relationships h obj rels' (dict_set name rel_obj relationships)
  end.

Definition serializable `{Router} (h : gmap loc (gmap string value))
  (self : Resource) (req : option request) : M (option Included) (dict doc) :=
  let* attributes :=
    lift (serializable_attributes h (r_obj self) (attributes (r_cls self)) []) in
  let* relationships :=
    lift (serializable_relationships h (r_obj self) (relationships (r_cls self)) []) in
  (fun included =>
     match included with
     | None => (Ok tt, None)
     | Some inc =>
         let '(r, inc') :=
           for_each (paths inc)
                    (fun path => resolve_include h self (PathStr path)) inc in
         (r, Some inc')
     end) ;;
  let res := [("attributes", DDict attributes)] in
  let* res := match bound_viewset (r_cls self) with
              | Some _ =>
                  let* link := lift (get_self_link h self req) in
                  ret (dict_update res [("links", DDict [("self", DVal (VStr link))])])
              | None => ret res
              end in
  let* i := lift (get_identifier h self) in
  let res := dict_update res i in
  match relationships with
  | [] => ret res
  | _ => ret (dict_set "relationships" (DDict relationships) res)
  end.

(** ** A blog and a club: the schemas and objects of the examples *)

Module Blog.

Definition column (name : string) : field := Field name name None None.

Definition tag_model : model_meta := Model "Tag" (fun _ => None) ∅.
Definition category_model : model_meta := Model "Category" (fun _ => None) ∅.
Definition author_model : model_meta := Model "Author" (fun _ => None) ∅.

Definition article_fields : dict field :=
  [("title", column "title");
   ("author", Field "author" "author_id" (Some "Author") None);
   ("tags", Field "tags" "tags" (Some "Tag") None);
   ("categories", Field "categories" "categories" (Some "Category") None)].

Definition article_model : model_meta :=
  Model "Article" (fun k => dict_get k article_fields)
        {[ "pk" := VNone; "title" := VStr "" ]}.

Definition CategoryResource : resource_class :=
  ResourceClass "category" category_model ["name"] [] None "pk".
Definition TagResource : resource_class :=
  ResourceClass "tag" tag_model ["name"]
    [("group", Relationship CategoryResource true None)] None "pk".
Definition AuthorResource : resource_class :=
  ResourceClass "author" author_model ["name"] [] None "pk".

Definition ArticleResource : resource_class :=
  ResourceClass "article" article_model ["title"]
    [("author", Relationship AuthorResource false None);
     ("tags", Relationship TagResource true None);
     ("categories", Relationship CategoryResource true None)]
    None "pk".

(** The same model, with the foreign key exposed as an attribute. *)
Definition ArticleRowResource : resource_class :=
  ResourceClass "article" article_model ["title"; "author"] [] None "pk".

(** Article 1 has an author and no tags yet; article 5 carries tag 2,
    which is in the group of category 3. *)
Definition objects : gmap loc (gmap string value) :=
  {[ 1%positive := {[ "pk" := VInt 1; "title" := VStr "Old";
                      "author" := VRef 4%positive; "author_id" := VInt 4;
                      "tags" := VManager []; "categories" := VManager [] ]};
     2%positive := {[ "pk" := VStr "1"; "id" := VStr "1"; "name" := VStr "rocq";
                      "group" := VManager [3%positive] ]};
     3%positive := {[ "pk" := VStr "7"; "id" := VStr "7"; "name" := VStr "news" ]};
     4%positive := {[ "pk" := VInt 4; "id" := VInt 4; "name" := VStr "Ada" ]};
     5%positive := {[ "pk" := VInt 5; "title" := VStr "Tagged";
                      "author" := VNone;
                      "tags" := VManager [2%positive];
                      "categories" := VManager [] ]} ]}.

Definition world : state := State objects [].

(** Tag "1", category "7" and author "4" are all the store holds. *)
Definition store : Store :=
  {| get_by_pk := fun m pk =>
       if decide (m = "Author" ∧ pk = VStr "4") then Some 4%positive else None;
     filter_pk_in := fun m (given : gset string) =>
       if decide (m = "Tag" ∧ "1" ∈ given) then [2%positive]
       else if decide (m = "Category" ∧ "7" ∈ given) then [3%positive]
       else [] |}.

Definition tag_ids (ids : list string) : rel_data :=
  DataMany (map (Identifier "tag") ids).

End Blog.

Module Club.

Definition nowhere : model_meta := Model "" (fun _ => None) ∅.

Definition OrgResource : resource_class :=
  ResourceClass "org" nowhere [] []
    (Some (Viewset None (Url "org" "org"))) "pk".
Definition TeamResource : resource_class :=
  ResourceClass "team" nowhere [] []
    (Some (Viewset (Some OrgResource) (Url "team" "team"))) "pk".
Definition MemberResource : resource_class :=
  ResourceClass "member" nowhere [] []
    (Some (Viewset (Some TeamResource) (Url "member" "member"))) "pk".

(** A team whose viewset hangs under a resource class that was never
    bound. *)
Definition LooseResource : resource_class :=
  ResourceClass "loose" nowhere [] [] None "pk".
Definition StrayResource : resource_class :=
  ResourceClass "stray" nowhere [] []
    (Some (Viewset (Some LooseResource) (Url "stray" "stray"))) "pk".

(** Org 1 has team 3, which has member 7. *)
Definition objects : gmap loc (gmap string value) :=
  {[ 10%positive := {[ "pk" := VInt 1 ]};
     11%positive := {[ "pk" := VInt 3; "org" := VRef 10%positive ]};
     12%positive := {[ "pk" := VInt 7; "team" := VRef 11%positive ]} ]}.

(** Routes are [/<value>/<value>/...], in the order of the kwargs. *)
Definition router : Router :=
  {| reverse := fun _ kwargs => Some ("/" +:+ join "/" (map snd kwargs)) |}.

End Club.

(** ** Notions the further properties are stated with *)

(** The lookup fields along the viewsets of [r], root first. *)
Definition chain_fields (r : resource_class) : list string :=
  map (fun rv => lookup_field (url (snd rv))) (chain r).

(** [r] wraps a member of one of the to-many relationships of [resource]
    itself, in the class that relationship names. *)
Definition direct_member (h : gmap loc (gmap string value)) (resource r : Resource)
  : Prop :=
  exists head rel objs o,
    dict_get head (relationships (r_cls resource)) = Some rel
    /\ read_attr h (r_obj resource) head = Ok (VManager objs)
    /\ o ∈ objs
    /\ r = mkResource (resource_class_of rel) (VRef o).

(** The keys of the document [serializable] returns for a class. *)
Definition document_keys (cls : resource_class) : list string :=
  ["attributes"]
  ++ match bound_viewset cls with Some _ => ["links"] | None => [] end
  ++ ["type"; "id"]
  ++ match relationships cls with [] => [] | _ => ["relationships"] end.

Module Tree.

(** A folder resource nested under a root resource. *)
Definition RootResource : resource_class :=
  ResourceClass "root" Club.nowhere [] []
    (Some (Viewset None (Url "root" "root"))) "pk".
Definition FolderResource : resource_class :=
  ResourceClass "folder" Club.nowhere ["name"] []
    (Some (Viewset (Some RootResource) (Url "folder" "folder"))) "pk".

(** Object 20 has a "folder" attribute, object 21. *)
Definition objects : gmap loc (gmap string value) :=
  {[ 20%positive := {[ "pk" := VInt 1; "name" := VStr "top";
                       "folder" := VRef 21%positive ]};
     21%positive := {[ "pk" := VInt 2; "name" := VStr "sub" ]} ]}.

Definition request_at_host : request :=
  Request (fun u => "https://example.org" +:+ u).

End Tree.

Module Legacy.

(** A store whose tags carry integer ids: tag 1 is object 6. *)
Definition objects : gmap loc (gmap string value) :=
  <[ 6%positive := {[ "pk" := VInt 1; "id" := VInt 1 ]} ]> Blog.objects.

Definition store : Store :=
  {| get_by_pk := fun _ _ => None;
     filter_pk_in := fun m (given : gset string) =>
       if decide (m = "Tag" ∧ "1" ∈ given) then [6%positive] else [] |}.

(** A class that lists an attribute tags do not have. *)
Definition TitledTagResource : resource_class :=
  ResourceClass "tag" Blog.tag_model ["name"; "title"] [] None "pk".

End Legacy.

(** ** [Resource.create], [Resource.update], [Resource.save] *)

(** The model instance's own [full_clean()] and [save()], which Django
    supplies. *)
Class Orm := {
  full_clean : loc -> M state unit;
  model_save : loc -> M state unit }.

(** [self.obj.full_clean()] and [self.obj.save()], on whatever [self.obj]
    is. *)
Definition obj_full_clean `{Orm} (obj : value) : M state unit :=
  match obj with
  | VRef l => full_clean l
  | _ => raise (AttributeError "full_clean")
  end.

Definition obj_save `{Orm} (obj : value) : M state unit :=
  match obj with
  | VRef l => model_save l
  | _ => raise (AttributeError "save")
  end.

Definition create `{Orm} (self : Resource) (kwargs : dict value) : M state value :=
  obj_full_clean (r_obj self) ;;
  obj_save (r_obj self) ;;
  ret (r_obj self).

Definition update `{Orm} (self : Resource) (kwargs : dict value) : M state value :=
  obj_full_clean (r_obj self) ;;
  obj_save (r_obj self) ;;
  ret (r_obj self).

(** [Resource.save]; the resource it returns is [self] after the assignment
    to [self.obj]. *)
Definition resource_save `{Orm} (self : Resource)
  (create_kwargs update_kwargs : option (dict value)) : M state Resource :=
  let create_kwargs := match create_kwargs with Some d => d | None => [] end in
  let update_kwargs := match update_kwargs with Some d => d | None => [] end in
  let* pk := getattr (r_obj self) "pk" in
  match pk with
  | VNone =>
      let* obj := create self create_kwargs in
      ret (mkResource (r_cls self) obj)
  | _ =>
      let* obj := update self update_kwargs in
      ret (mkResource (r_cls self) obj)
  end.

Module Desk.

(** A model whose validation refuses a blank title and whose save gives a
    new object the primary key 100. *)
Definition orm : Orm :=
  {| full_clean := fun l =>
       let* title := getattr (VRef l) "title" in
       match title with
       | VStr EmptyString => raise (ValidationError [("title", "blank")])
       | _ => ret tt
       end;
     model_save := fun l =>
       let* pk := getattr (VRef l) "pk" in
       match pk with
       | VNone => setattr l "pk" (VInt 100)
       | _ => ret tt
       end |}.

(** Object 30 is a draft that was never saved. *)
Definition objects : gmap loc (gmap string value) :=
  <[ 30%positive := {[ "pk" := VNone; "title" := VStr "Draft" ]} ]> Blog.objects.

End Desk.

(** * Properties *)

(** ** Loops *)

Lemma for_each_app {S A} (xs ys : list A) (body : A -> M S unit) (s : S) :
  for_each (xs ++ ys) body s = (for_each xs body ;; for_each ys body) s.
Proof.
  revert s. induction xs as [|x xs IH]; intros s; simpl.
  - reflexivity.
  - unfold bind. destruct (body x s) as [[[]|e] s1].
    + rewrite IH. reflexivity.
    + reflexivity.
Qed.

Lemma for_each_ext {S A} (xs : list A) (f g : A -> M S unit) :
  (forall x s, f x s = g x s) -> forall s, for_each xs f s = for_each xs g s.
Proof.
  intros Hfg. induction xs as [|x xs IH]; intros s; simpl.
  - reflexivity.
  - unfold bind. rewrite Hfg. destruct (g x s) as [[[]|e] s1]; auto.
Qed.

(** A loop that succeeded on a prefix and raises at the next element
    raises, in the state the prefix left. *)
Lemma for_each_raise_at {S A} (pre post : list A) (x : A) (body : A -> M S unit)
  (s s1 s2 : S) (e : exn) :
  for_each pre body s = (Ok tt, s1) ->
  body x s1 = (Raise e, s2) ->
  for_each (pre ++ x :: post) body s = (Raise e, s2).
Proof.
  intros Hpre Hx. rewrite for_each_app. unfold bind at 1. rewrite Hpre.
  simpl. unfold bind. rewrite Hx. reflexivity.
Qed.

(** ** Include paths *)

Lemma split_dot_rest_shorter (s head rest : string) :
  split_dot s = (head, Some rest) -> (String.length rest < String.length s)%nat.
Proof.
  revert head. induction s as [|c s IH]; intros head; simpl.
  - discriminate.
  - destruct (decide (c = "."%char)).
    + intros [= _ <-]. lia.
    + destruct (split_dot s) as [h' r'] eqn:E. intros [= _ ->].
      specialize (IH h' eq_refl). lia.
Qed.

(** One call of [resolve_include] on a string, spelled out. *)
Lemma resolve_include_at_str (h : gmap loc (gmap string value))
  (resource : Resource) (n : nat) (s : string) (inc : Included) :
  resolve_include_at (S n) h resource (PathStr s) inc =
  match dict_get (fst (split_dot s)) (relationships (r_cls resource)) with
  | None => (Raise (SerializationError (undeclared_message (fst (split_dot s)))), inc)
  | Some rel =>
      match read_attr h (r_obj resource) (fst (split_dot s)) with
      | Ok (VManager objs) =>
          for_each objs (fun obj =>
            resolve_include_at n h resource (rest_of s) ;;
            included_add h (mkResource (resource_class_of rel) (VRef obj))) inc
      | Ok _ => (Raise (AttributeError "all"), inc)
      | Raise e => (Raise e, inc)
      end
  end.
Proof.
  unfold rest_of. simpl.
  destruct (split_dot s) as [head [rest|]]; unfold bind, ret, raise, lift; simpl;
    (destruct (dict_get head _) as [rel|]; [|reflexivity]);
    destruct (read_attr h (r_obj resource) head) as [[]|]; reflexivity.
Qed.

Lemma rest_of_size (s : string) : (path_size (rest_of s) < path_size (PathStr s))%nat.
Proof.
  unfold rest_of. destruct (split_dot s) as [head [rest|]] eqn:E; simpl.
  - apply split_dot_rest_shorter in E. lia.
  - lia.
Qed.

(** [resolve_include] does not depend on the depth bound once the bound
    exceeds the size of the path: the recursion limit is never what stops
    it. *)
Lemma resolve_include_at_enough (h : gmap loc (gmap string value))
  (resource : Resource) (n m : nat) :
  forall (path : path_arg) (inc : Included),
    (path_size path < n)%nat -> (path_size path < m)%nat ->
    resolve_include_at n h resource path inc
    = resolve_include_at m h resource path inc.
Proof.
  revert m. induction n as [|n IH]; intros m path inc Hn Hm; [lia|].
  destruct m as [|m]; [lia|].
  destruct path as [s|]; [|reflexivity].
  rewrite !resolve_include_at_str.
  destruct (dict_get _ _) as [rel|]; [|reflexivity].
  destruct (read_attr h (r_obj resource) _) as [[]|]; try reflexivity.
  apply for_each_ext. intros obj s0. unfold bind.
  pose proof (rest_of_size s) as Hs.
  rewrite (IH m (rest_of s) s0); [reflexivity|lia|lia].
Qed.

Lemma resolve_include_total (h : gmap loc (gmap string value))
  (resource : Resource) (path : path_arg) (inc : Included) (n : nat) :
  (path_size path < n)%nat ->
  resolve_include_at n h resource path inc = resolve_include h resource path inc.
Proof. intros Hn. apply resolve_include_at_enough; [assumption|lia]. Qed.

(** The recursion limit is not what a call of [resolve_include] ends on. *)
Lemma resolve_include_at_no_recursion_error (h : gmap loc (gmap string value))
  (resource : Resource) (n : nat) :
  forall (path : path_arg) (inc : Included),
    (path_size path < n)%nat ->
    fst (resolve_include_at n h resource path inc) <> Raise RecursionError.
Proof.
  induction n as [|n IH]; intros path inc Hn; [lia|].
  destruct path as [s|]; [|discriminate].
  rewrite resolve_include_at_str.
  destruct (dict_get _ _) as [rel|]; [|discriminate].
  destruct (read_attr h (r_obj resource) _) as [[| | | |objs|]|e] eqn:Er;
    try discriminate.
  - pose proof (rest_of_size s) as Hs.
    assert (Hr : (path_size (rest_of s) < n)%nat) by lia.
    clear Er. revert inc.
    induction objs as [|o objs IHo]; intros inc; simpl; [discriminate|].
    unfold bind at 1. unfold bind at 1.
    specialize (IH (rest_of s) inc Hr).
    destruct (resolve_include_at n h resource (rest_of s) inc) as [[[]|e] s1];
      simpl in *; [apply IHo | congruence].
  - simpl. intros [= ->]. unfold read_attr in Er.
    repeat case_match; discriminate.
Qed.

(** A path whose head is declared and reaches at least one member, and that
    has no further segment: the recursive call on the empty list that stands
    for the missing rest raises before the member is added. *)
Lemma resolve_include_last_segment (h : gmap loc (gmap string value))
  (resource : Resource) (s : string) (rel : relationship) (o : loc)
  (objs : list loc) (inc : Included) :
  snd (split_dot s) = None ->
  dict_get (fst (split_dot s)) (relationships (r_cls resource)) = Some rel ->
  read_attr h (r_obj resource) (fst (split_dot s)) = Ok (VManager (o :: objs)) ->
  resolve_include h resource (PathStr s) inc = (Raise (AttributeError "split"), inc).
Proof.
  intros Hrest Hrel Hm. unfold resolve_include.
  cbn [path_size]. rewrite resolve_include_at_str, Hrel, Hm.
  unfold rest_of. rewrite Hrest. reflexivity.
Qed.

(** The rest of a dotted path is looked up in the relationships of the
    resource the call started from, whatever the related class declares. *)
Lemma resolve_include_rest_same_resource (h : gmap loc (gmap string value))
  (resource : Resource) (s rest : string) (rel : relationship) (o : loc)
  (objs : list loc) (inc : Included) :
  snd (split_dot s) = Some rest ->
  dict_get (fst (split_dot s)) (relationships (r_cls resource)) = Some rel ->
  read_attr h (r_obj resource) (fst (split_dot s)) = Ok (VManager (o :: objs)) ->
  dict_get (fst (split_dot rest)) (relationships (r_cls resource)) = None ->
  resolve_include h resource (PathStr s) inc
  = (Raise (SerializationError (undeclared_message (fst (split_dot rest)))), inc).
Proof.
  intros Hrest Hrel Hm Hnone. unfold resolve_include.
  cbn [path_size]. rewrite resolve_include_at_str, Hrel, Hm.
  unfold rest_of. rewrite Hrest. cbn [for_each]. unfold bind at 1. unfold bind at 1.
  destruct (String.length s) as [|n] eqn:El.
  - destruct s; [discriminate Hrest | discriminate El].
  - rewrite resolve_include_at_str, Hnone. reflexivity.
Qed.

(** C1 (the code departs from the claim): article 5 carries tag 2, yet
    resolving the path "tags" on it raises on the empty rest and leaves the
    include set empty, where the claim has the tag added; and resolving
    "tags.group" looks "group" up on the article's own class, which does not
    declare it, where the claim has it looked up on the tag's class, which
    does. *)
Theorem resolve_include_drops_members :
  let article := mkResource Blog.ArticleResource (VRef 5%positive) in
  resolve_include Blog.objects article (PathStr "tags") (mkIncluded ["tags"] [])
  = (Raise (AttributeError "split"), mkIncluded ["tags"] [])
  /\ is_Some (dict_get "group" (relationships Blog.TagResource))
  /\ resolve_include Blog.objects article (PathStr "tags.group")
       (mkIncluded ["tags.group"] [])
     = (Raise (SerializationError "'group' is not a valid relationship to include"),
        mkIncluded ["tags.group"] []).
Proof.
  intros article. split; [|split].
  - apply (resolve_include_last_segment _ _ _
             (Relationship Blog.TagResource true None) 2%positive []);
      reflexivity.
  - eexists. reflexivity.
  - apply (resolve_include_rest_same_resource _ _ _ "group"
             (Relationship Blog.TagResource true None) 2%positive []);
      reflexivity.
Qed.

(** C7: when the first segment of an include path is not a declared
    relationship of the resource's class, [resolve_include] raises
    SerializationError and the include set is left as it was. *)
Theorem resolve_include_undeclared (h : gmap loc (gmap string value))
  (resource : Resource) (s : string) (inc : Included) :
  dict_get (fst (split_dot s)) (relationships (r_cls resource)) = None ->
  resolve_include h resource (PathStr s) inc
  = (Raise (SerializationError (undeclared_message (fst (split_dot s)))), inc).
Proof.
  intros Hnone. unfold resolve_include. cbn [path_size].
  rewrite resolve_include_at_str, Hnone. reflexivity.
Qed.

Lemma resolve_include_ghost :
  dict_get (fst (split_dot "ghost")) (relationships Blog.ArticleResource) = None
  /\ resolve_include Blog.objects (mkResource Blog.ArticleResource (VRef 1%positive))
       (PathStr "ghost") (mkIncluded ["ghost"] [])
     = (Raise (SerializationError "'ghost' is not a valid relationship to include"),
        mkIncluded ["ghost"] []).
Proof.
  split; [reflexivity|].
  apply (resolve_include_undeclared Blog.objects
           (mkResource Blog.ArticleResource (VRef 1%positive)) "ghost").
  reflexivity.
Defined.

(** ** Self links *)

(** Induction along the parents of a viewset binding. *)
Lemma chain_ind (P : resource_class -> Prop) :
  (forall r, bound_viewset r = None -> P r) ->
  (forall r viewset,
      bound_viewset r = Some viewset -> parent viewset = None -> P r) ->
  (forall r viewset p,
      bound_viewset r = Some viewset -> parent viewset = Some p -> P p -> P r) ->
  forall r, P r.
Proof.
  intros Hunbound Hroot Hnested.
  fix IH 1. intros r.
  destruct r as [t m a rs [[[p|] u]|] i].
  - apply (Hnested _ (Viewset (Some p) u) p); [reflexivity|reflexivity|apply IH].
  - apply (Hroot _ (Viewset None u)); reflexivity.
  - apply Hunbound. reflexivity.
Qed.

Lemma resolve_eq (h : gmap loc (gmap string value)) (self_obj : value)
  (r : resource_class) :
  resolve h self_obj r =
  match bound_viewset r with
  | None => raise (RuntimeError unbound_message)
  | Some viewset =>
      match parent viewset with
      | Some p => resolve h self_obj p
      | None => ret tt
      end ;;
      resolve_level h self_obj r viewset
  end.
Proof. destruct r; reflexivity. Qed.

Lemma read_attr_raises (h : gmap loc (gmap string value)) (v : value)
  (a : string) (e : exn) :
  read_attr h v a = Raise e -> e = AttributeError a.
Proof. unfold read_attr. intros Hr. repeat case_match; congruence. Qed.

Lemma resolve_level_raises (h : gmap loc (gmap string value)) (self_obj : value)
  (r : resource_class) (viewset : viewset) (s s' : dict string * value) (e : exn) :
  resolve_level h self_obj r viewset s = (Raise e, s') ->
  exists a, e = AttributeError a.
Proof.
  unfold resolve_level, bind, gets, ret, lift, modify, resource_id. simpl.
  intros Hr. repeat case_match; simplify_eq; eauto using read_attr_raises.
Qed.

(** An unbound class anywhere on the chain stops [resolve] before it has
    touched [kwargs] or [obj]. *)
Lemma resolve_unbound (h : gmap loc (gmap string value)) (self_obj : value)
  (r : resource_class) :
  chain_bound r = false ->
  forall s, resolve h self_obj r s = (Raise (RuntimeError unbound_message), s).
Proof.
  induction r as [r Hb|r viewset Hb Hp|r viewset p Hb Hp IH] using chain_ind;
    intros Hc s; rewrite resolve_eq, Hb.
  - reflexivity.
  - destruct r; simpl in *. rewrite Hb, Hp in Hc. discriminate.
  - rewrite Hp. unfold bind. rewrite IH; [reflexivity|].
    destruct r; simpl in *. rewrite Hb, Hp in Hc. exact Hc.
Qed.

(** With every class on the chain bound, [resolve] is the loop over the
    chain from the root down, and what it can raise is an AttributeError. *)
Lemma resolve_bound (h : gmap loc (gmap string value)) (self_obj : value)
  (r : resource_class) :
  chain_bound r = true ->
  forall s, resolve h self_obj r s
            = for_each (chain r) (fun rv => resolve_level h self_obj (fst rv) (snd rv)) s.
Proof.
  induction r as [r Hb|r viewset Hb Hp|r viewset p Hb Hp IH] using chain_ind;
    intros Hc s; rewrite resolve_eq, Hb.
  - destruct r; simpl in *. rewrite Hb in Hc. discriminate.
  - rewrite Hp. destruct r; simpl in *. rewrite Hb, Hp. simpl.
    unfold bind, ret. simpl.
    destruct (resolve_level _ _ _ _ _) as [[[]|e] s1]; reflexivity.
  - rewrite Hp.
    assert (Hcp : chain_bound p = true).
    { destruct r; simpl in *. rewrite Hb, Hp in Hc. exact Hc. }
    assert (Hch : chain r = chain p ++ [(r, viewset)]).
    { destruct r; simpl in *. rewrite Hb, Hp. reflexivity. }
    rewrite Hch, for_each_app. unfold bind. rewrite (IH Hcp).
    destruct (for_each (chain p) _ s) as [[[]|e] s1]; [|reflexivity].
    simpl. unfold bind, ret.
    destruct (resolve_level _ _ _ _ _) as [[[]|e] s2]; reflexivity.
Qed.

Lemma resolve_bound_raises (h : gmap loc (gmap string value)) (self_obj : value)
  (r : resource_class) (s s' : dict string * value) (e : exn) :
  chain_bound r = true ->
  resolve h self_obj r s = (Raise e, s') ->
  exists a, e = AttributeError a.
Proof.
  intros Hc. rewrite (resolve_bound _ _ _ Hc). clear Hc.
  revert s. induction (chain r) as [|[c v] l IH]; intros s; simpl.
  - discriminate.
  - unfold bind.
    destruct (resolve_level h self_obj c v s) as [[[]|e1] s1] eqn:E.
    + apply IH.
    + intros [= <- <-]. eauto using resolve_level_raises.
Qed.

(** The first level [resolve] reaches, the root, takes the resource's own
    object. *)
Lemma resolve_level_first (h : gmap loc (gmap string value)) (self_obj : value)
  (r : resource_class) (viewset : viewset) (kwargs : dict string) :
  resolve_level h self_obj r viewset (kwargs, VNone) =
  match resource_id h (mkResource r self_obj) with
  | Ok i => (Ok tt, (dict_set (lookup_field (url viewset)) (str i) kwargs, self_obj))
  | Raise e => (Raise e, (kwargs, self_obj))
  end.
Proof.
  unfold resolve_level, bind, gets, ret, lift, modify. simpl.
  destruct (resource_id h _); reflexivity.
Qed.

(** Every later level reads its object off the previous level's object,
    through its own lookup field. *)
Lemma resolve_level_next (h : gmap loc (gmap string value)) (self_obj obj : value)
  (r : resource_class) (viewset : viewset) (kwargs : dict string) :
  obj <> VNone ->
  resolve_level h self_obj r viewset (kwargs, obj) =
  match read_attr h obj (lookup_field (url viewset)) with
  | Ok obj' =>
      match resource_id h (mkResource r obj') with
      | Ok i => (Ok tt, (dict_set (lookup_field (url viewset)) (str i) kwargs, obj'))
      | Raise e => (Raise e, (kwargs, obj'))
      end
  | Raise e => (Raise e, (kwargs, obj))
  end.
Proof.
  intros Hobj. unfold resolve_level, bind, gets, ret, lift, modify. simpl.
  destruct obj; try congruence;
    (destruct (read_attr h _ (lookup_field (url viewset))); [|reflexivity]);
    simpl; destruct (resource_id h _); reflexivity.
Qed.

(** A class bound to a viewset without a parent links to its own id. *)
Lemma get_self_link_single_level `{Router} (h : gmap loc (gmap string value))
  (self : Resource) (viewset : viewset) (i : value) :
  bound_viewset (r_cls self) = Some viewset ->
  parent viewset = None ->
  resource_id h self = Ok i ->
  get_self_link h self None
  = match reverse (base_name (url viewset) +:+ "-detail")
                  [(lookup_field (url viewset), str i)] with
    | Some u => Ok u
    | None => Raise NoReverseMatch
    end.
Proof.
  intros Hb Hp Hi. unfold get_self_link.
  rewrite resolve_eq, Hb, Hp. unfold bind at 1. unfold ret at 1.
  rewrite resolve_level_first. destruct self as [c o]. simpl in *.
  rewrite Hi. reflexivity.
Qed.

(** C4 (the code departs from the claim): member 7 of team 3 of org 1, under
    a three-level binding org / team / member.  The claim has the lookup
    map org 1, team 3, member 7, with the member's own object at the leaf.
    The code gives the resource's own object to the root, so "org" is mapped
    to the member's id 7, and reads the leaf's object off the team through
    the leaf's lookup field, which the team does not have: the call raises
    AttributeError with only two of the three entries built. *)
Theorem get_self_link_three_levels :
  let member := mkResource Club.MemberResource (VRef 12%positive) in
  map (fun rv => lookup_field (url (snd rv))) (chain Club.MemberResource)
  = ["org"; "team"; "member"]
  /\ resolve Club.objects (r_obj member) Club.MemberResource ([], VNone)
     = (Raise (AttributeError "member"),
        ([("org", "7"); ("team", "3")], VRef 11%positive))
  /\ get_self_link (H := Club.router) Club.objects member None
     = Raise (AttributeError "member").
Proof. intros member. repeat split; reflexivity. Qed.

(** C8: when the resource's class, or a class on the parent chain of its
    viewset, is not bound to a viewset, [get_self_link] raises the
    RuntimeError that says so; when the whole chain is bound it never
    raises a RuntimeError. *)
Theorem get_self_link_binding `{Router} (h : gmap loc (gmap string value))
  (self : Resource) (req : option request) :
  (chain_bound (r_cls self) = false ->
   get_self_link h self req = Raise (RuntimeError unbound_message))
  /\ (chain_bound (r_cls self) = true ->
      forall msg, get_self_link h self req <> Raise (RuntimeError msg)).
Proof.
  split; intros Hc.
  - unfold get_self_link. rewrite (resolve_unbound _ _ _ Hc). reflexivity.
  - intros msg. unfold get_self_link.
    destruct (resolve h (r_obj self) (r_cls self) ([], VNone)) as [[[]|e] [kw o]] eqn:E.
    + destruct (bound_viewset (r_cls self)) as [viewset|] eqn:Hb.
      * destruct (reverse _ _); [destruct req|]; discriminate.
      * destruct (r_cls self); simpl in *. rewrite Hb in Hc. discriminate.
    + destruct (resolve_bound_raises _ _ _ _ _ _ Hc E) as [a ->]. discriminate.
Qed.

Lemma get_self_link_binding_examples :
  (chain_bound Club.StrayResource = false
   /\ get_self_link (H := Club.router) Club.objects
        (mkResource Club.StrayResource (VRef 11%positive)) None
      = Raise (RuntimeError unbound_message))
  /\ (chain_bound Club.OrgResource = true
      /\ forall msg,
           get_self_link (H := Club.router) Club.objects
             (mkResource Club.OrgResource (VRef 10%positive)) None
           <> Raise (RuntimeError msg)).
Proof.
  split; (split; [reflexivity|]).
  - apply (proj1 (get_self_link_binding (H := Club.router) Club.objects
                    (mkResource Club.StrayResource (VRef 11%positive)) None)).
    reflexivity.
  - apply (proj2 (get_self_link_binding (H := Club.router) Club.objects
                    (mkResource Club.OrgResource (VRef 10%positive)) None)).
    reflexivity.
Defined.

(** ** Populate: one relationship at a time *)

(** The step for a to-one relationship whose schema resolves. *)
Lemma populate_relationship_one `{Store} (cls : resource_class) (fid : nat)
  (o : loc) (k : string) (i : identifier) (rel : relationship) (f : field)
  (to : string) (st : state) :
  dict_get k (relationships cls) = Some rel ->
  collection rel = false ->
  get_field (model cls) (attr_of k rel) = Some f ->
  f_rel f = Some to ->
  populate_relationship cls fid o (k, DataOne i) st =
  match get_by_pk to (VStr (id_id i)) with
  | None => (Raise (ValidationError [(k, one_message k (id_id i))]), st)
  | Some t => (Ok tt, State (write_attr o (f_attname f) (VRef t) (heap st)) (frames st))
  end.
Proof.
  intros Hrel Hcol Hf Hto.
  unfold populate_relationship, lookup_field_of, bind, ret, raise. simpl.
  rewrite Hrel. simpl. rewrite Hcol. simpl.
  rewrite Hf. simpl. rewrite Hto. simpl.
  destruct (get_by_pk to (VStr (id_id i))); reflexivity.
Qed.

(** The step for a to-many relationship whose schema resolves and whose
    fetched objects all carry an [id]. *)
Lemma populate_relationship_many `{Store} (cls : resource_class) (fid : nat)
  (o : loc) (k : string) (ids : list identifier) (rel : relationship)
  (f : field) (related accessor_name : string) (found : list value) (st : state) :
  dict_get k (relationships cls) = Some rel ->
  collection rel = true ->
  get_field (model cls) (attr_of k rel) = Some f ->
  related_of f = Some (related, accessor_name) ->
  let given : gset string := list_to_set (map id_id ids) in
  let qs := filter_pk_in related given in
  read_ids (heap st) qs = Ok found ->
  populate_relationship cls fid o (k, DataMany ids) st =
  if decide (difference given found = ∅)
  then (Ok tt, State (write_attr o "save_relationships" (VFunc fid) (heap st))
                     (bound_frames fid accessor_name qs (frames st)))
  else (Raise (ValidationError
                 [(k, many_message k (sorted (elements (difference given found))))]),
        State (heap st) (bound_frames fid accessor_name qs (frames st))).
Proof.
  intros Hrel Hcol Hf Hra given qs Hfound.
  unfold populate_relationship, lookup_field_of, bind, ret, raise. simpl.
  rewrite Hrel. simpl. rewrite Hcol. simpl.
  rewrite Hf. simpl. rewrite Hra. simpl.
  unfold found_ids. simpl. fold given. fold qs. rewrite Hfound.
  destruct (decide (difference given found = ∅)); reflexivity.
Qed.

(** A call whose loop raises at some relationship raises that exception, in
    the state the loop had reached. *)
Lemma populate_raises_at `{Store} (cls : resource_class) (data : payload)
  (obj : option loc) (st st0 st1 st2 : state) (o : loc) (fid : nat)
  (pre post : dict rel_data) (kv : string * rel_data) (e : exn) :
  populate_begin cls data obj st = (Ok (o, fid), st0) ->
  p_relationships data = Some (pre ++ kv :: post) ->
  for_each pre (populate_relationship cls fid o) st0 = (Ok tt, st1) ->
  populate_relationship cls fid o kv st1 = (Raise e, st2) ->
  populate cls data obj st = (Raise e, st2).
Proof.
  intros Hbegin Hrels Hpre Hkv. unfold populate, bind at 1. rewrite Hbegin.
  unfold bind at 1. rewrite Hrels. simpl.
  rewrite (for_each_raise_at pre post kv _ st0 st1 st2 e Hpre Hkv). reflexivity.
Qed.

(** [sorted] lists each element of its argument once and in order. *)
Lemma sorted_missing (given : gset string) (found : list value) :
  let missing := sorted (elements (difference given found)) in
  Sorted str_le missing /\ NoDup missing
  /\ forall i, i ∈ missing <-> i ∈ given /\ VStr i ∉ found.
Proof.
  intros missing. unfold missing, sorted. split; [|split].
  - apply Sorted_merge_sort. apply _.
  - rewrite merge_sort_Permutation. apply NoDup_elements.
  - intros i. rewrite merge_sort_Permutation, elem_of_elements.
    unfold difference. rewrite elem_of_filter. tauto.
Qed.

Lemma sorted_nil (l : list string) : sorted l = [] <-> l = [].
Proof.
  unfold sorted. split; intros Hl.
  - apply Permutation_nil. rewrite <- Hl. apply merge_sort_Permutation.
  - subst. reflexivity.
Qed.

Lemma read_attr_write_same (h : gmap loc (gmap string value)) (l : loc)
  (a : string) (v : value) :
  read_attr (write_attr l a v h) (VRef l) a = Ok v.
Proof.
  unfold read_attr, write_attr. rewrite lookup_insert_eq, lookup_insert_eq.
  reflexivity.
Qed.

Lemma read_attr_write_other (h : gmap loc (gmap string value)) (l l' : loc)
  (a a' : string) (v : value) :
  l <> l' \/ a <> a' ->
  read_attr (write_attr l a v h) (VRef l') a' = read_attr h (VRef l') a'.
Proof.
  intros Hne. unfold read_attr, write_attr.
  destruct (decide (l = l')) as [<-|Hl].
  - destruct Hne as [Hne|Hne]; [congruence|].
    rewrite lookup_insert_eq, lookup_insert_ne by assumption.
    destruct (h !! l); simpl; [reflexivity|]. rewrite lookup_empty. reflexivity.
  - rewrite lookup_insert_ne by assumption. reflexivity.
Qed.

(** What the to-one step does: when the relationship loop of [populate]
    reaches a to-one relationship that the schema resolves, the target is
    fetched by the primary key taken from the payload's data.id; if the
    store has none the call raises ValidationError keyed by the relationship
    name; if it has one the step raises nothing and leaves the target on the
    owning object under the field's [attname], not under the field's
    name. *)
Theorem populate_to_one `{Store} (cls : resource_class) (data : payload)
  (obj : option loc) (st st0 st1 : state) (o : loc) (fid : nat)
  (pre post : dict rel_data) (k : string) (i : identifier)
  (rel : relationship) (f : field) (to : string) :
  populate_begin cls data obj st = (Ok (o, fid), st0) ->
  p_relationships data = Some (pre ++ (k, DataOne i) :: post) ->
  for_each pre (populate_relationship cls fid o) st0 = (Ok tt, st1) ->
  dict_get k (relationships cls) = Some rel ->
  collection rel = false ->
  get_field (model cls) (attr_of k rel) = Some f ->
  f_rel f = Some to ->
  match get_by_pk to (VStr (id_id i)) with
  | None =>
      populate cls data obj st
      = (Raise (ValidationError [(k, one_message k (id_id i))]), st1)
  | Some t =>
      exists st2,
        populate_relationship cls fid o (k, DataOne i) st1 = (Ok tt, st2)
        /\ read_attr (heap st2) (VRef o) (f_attname f) = Ok (VRef t)
  end.
Proof.
  intros Hbegin Hrels Hpre Hrel Hcol Hf Hto.
  pose proof (populate_relationship_one cls fid o k i rel f to st1
                Hrel Hcol Hf Hto) as Hstep.
  destruct (get_by_pk to (VStr (id_id i))) as [t|].
  - eexists. split; [exact Hstep|]. simpl. apply read_attr_write_same.
  - exact (populate_raises_at cls data obj st st0 st1 st1 o fid pre post _ _
             Hbegin Hrels Hpre Hstep).
Qed.

Lemma populate_to_one_examples :
  populate (H := Blog.store) Blog.ArticleResource
    (Payload (Some [("title", VStr "New")])
             (Some [("author", DataOne (Identifier "author" "99"))]))
    (Some 1%positive) Blog.world
  = (Raise (ValidationError
              [("author", one_message "author" "99")]),
     State (write_attr 1%positive "title" (VStr "New") Blog.objects)
           [Frame 1%positive None None])
  /\ exists st2,
       populate_relationship (H := Blog.store) Blog.ArticleResource 0 1%positive
         ("author", DataOne (Identifier "author" "4"))
         (State (write_attr 1%positive "title" (VStr "New") Blog.objects)
                [Frame 1%positive None None])
       = (Ok tt, st2)
       /\ read_attr (heap st2) (VRef 1%positive) "author_id" = Ok (VRef 4%positive).
Proof.
  split.
  - exact (populate_to_one (H := Blog.store) Blog.ArticleResource
             (Payload (Some [("title", VStr "New")])
                      (Some [("author", DataOne (Identifier "author" "99"))]))
             (Some 1%positive) Blog.world
             (State (write_attr 1%positive "title" (VStr "New") Blog.objects)
                    [Frame 1%positive None None])
             (State (write_attr 1%positive "title" (VStr "New") Blog.objects)
                    [Frame 1%positive None None])
             1%positive 0%nat [] [] "author" (Identifier "author" "99")
             (Relationship Blog.AuthorResource false None)
             (Field "author" "author_id" (Some "Author") None) "Author"
             eq_refl eq_refl eq_refl eq_refl eq_refl eq_refl eq_refl).
  - exact (populate_to_one (H := Blog.store) Blog.ArticleResource
             (Payload (Some [("title", VStr "New")])
                      (Some [("author", DataOne (Identifier "author" "4"))]))
             (Some 1%positive) Blog.world
             (State (write_attr 1%positive "title" (VStr "New") Blog.objects)
                    [Frame 1%positive None None])
             (State (write_attr 1%positive "title" (VStr "New") Blog.objects)
                    [Frame 1%positive None None])
             1%positive 0%nat [] [] "author" (Identifier "author" "4")
             (Relationship Blog.AuthorResource false None)
             (Field "author" "author_id" (Some "Author") None) "Author"
             eq_refl eq_refl eq_refl eq_refl eq_refl eq_refl eq_refl).
Defined.

(** What the to-many step does: when the relationship loop of [populate]
    reaches a to-many relationship that the schema resolves, the requested
    ids are the set of the ids in the payload, the matching targets are
    fetched in one batch, and an id counts as missing when it is not, as the
    string it is, the [id] of a fetched target.  If some count as missing
    the call raises ValidationError keyed by the relationship name, with a
    message that lists them, each once, in sorted order, and nothing has
    been written to an object; if none does the step raises nothing. *)
Theorem populate_to_many_missing `{Store} (cls : resource_class) (data : payload)
  (obj : option loc) (st st0 st1 : state) (o : loc) (fid : nat)
  (pre post : dict rel_data) (k : string) (ids : list identifier)
  (rel : relationship) (f : field) (related accessor_name : string)
  (found : list value) :
  populate_begin cls data obj st = (Ok (o, fid), st0) ->
  p_relationships data = Some (pre ++ (k, DataMany ids) :: post) ->
  for_each pre (populate_relationship cls fid o) st0 = (Ok tt, st1) ->
  dict_get k (relationships cls) = Some rel ->
  collection rel = true ->
  get_field (model cls) (attr_of k rel) = Some f ->
  related_of f = Some (related, accessor_name) ->
  let given : gset string := list_to_set (map id_id ids) in
  let qs := filter_pk_in related given in
  read_ids (heap st1) qs = Ok found ->
  let missing := sorted (elements (difference given found)) in
  (Sorted str_le missing /\ NoDup missing
   /\ forall i, i ∈ missing <-> i ∈ map id_id ids /\ VStr i ∉ found)
  /\ (missing <> [] ->
      exists st2,
        heap st2 = heap st1
        /\ populate cls data obj st
           = (Raise (ValidationError [(k, many_message k missing)]), st2))
  /\ (missing = [] ->
      exists st2,
        populate_relationship cls fid o (k, DataMany ids) st1 = (Ok tt, st2)).
Proof.
  intros Hbegin Hrels Hpre Hrel Hcol Hf Hra given qs Hfound missing.
  pose proof (populate_relationship_many cls fid o k ids rel f related
                accessor_name found st1 Hrel Hcol Hf Hra Hfound) as Hstep.
  fold given in Hstep. fold qs in Hstep.
  destruct (sorted_missing given found) as (Hsorted & Hnodup & Hin).
  split; [|split].
  - split; [exact Hsorted|split; [exact Hnodup|]].
    intros i. fold missing in Hin. rewrite Hin. unfold given.
    rewrite elem_of_list_to_set. reflexivity.
  - intros Hmissing.
    destruct (decide (difference given found = ∅)) as [Hempty|Hne].
    + exfalso. apply Hmissing. unfold missing. rewrite Hempty.
      rewrite elements_empty. reflexivity.
    + eexists. split; [|exact (populate_raises_at cls data obj st st0 st1 _ o fid
                                 pre post _ _ Hbegin Hrels Hpre Hstep)].
      reflexivity.
  - intros Hmissing.
    destruct (decide (difference given found = ∅)) as [Hempty|Hne].
    + eexists. exact Hstep.
    + exfalso. apply Hne. unfold missing in Hmissing.
      apply (proj1 (sorted_nil _)) in Hmissing.
      apply elements_empty_inv in Hmissing. apply leibniz_equiv. assumption.
Qed.

(** Ids "3", "1" and "9" are requested from a store whose ids are strings
    and that holds only tag "1": the message lists "3, 9". *)
Lemma populate_to_many_missing_3_1_9 :
  exists st2,
    heap st2 = write_attr 1%positive "title" (VStr "New") Blog.objects
    /\ populate (H := Blog.store) Blog.ArticleResource
         (Payload (Some [("title", VStr "New")])
                  (Some [("tags", Blog.tag_ids ["3"; "1"; "9"])]))
         (Some 1%positive) Blog.world
       = (Raise (ValidationError
                   [("tags", "Relationship " +:+ dquote +:+ "tags" +:+ dquote
                              +:+ " object IDs 3, 9 do not exist")]),
          st2).
Proof.
  pose proof (populate_to_many_missing (H := Blog.store) Blog.ArticleResource
           (Payload (Some [("title", VStr "New")])
                    (Some [("tags", Blog.tag_ids ["3"; "1"; "9"])]))
           (Some 1%positive) Blog.world
           (State (write_attr 1%positive "title" (VStr "New") Blog.objects)
                  [Frame 1%positive None None])
           (State (write_attr 1%positive "title" (VStr "New") Blog.objects)
                  [Frame 1%positive None None])
           1%positive 0%nat [] [] "tags"
           (map (Identifier "tag") ["3"; "1"; "9"])
           (Relationship Blog.TagResource true None)
           (Field "tags" "tags" (Some "Tag") None) "Tag" "tags" [VStr "1"]
           eq_refl eq_refl eq_refl eq_refl eq_refl eq_refl eq_refl eq_refl)
    as (_ & Hmissing & _).
  apply Hmissing. vm_compute. discriminate.
Defined.

(** C2 (the code departs from the claim): the requested ids are the
    strings of the payload and the found ids are the [id] attributes of the
    fetched objects, compared as they are.  In a store with integer primary
    keys, where tag 1 exists (object 6, fetched by the batch), requesting
    "3", "1" and "9" raises ValidationError listing "1, 3, 9", where the
    claim has "3, 9"; and requesting only "1", which exists, raises
    ValidationError too, where the claim has no error. *)
Theorem populate_to_many_integer_ids :
  let world := State Legacy.objects [] in
  let payload ids := Payload (Some []) (Some [("tags", Blog.tag_ids ids)]) in
  filter_pk_in (Store := Legacy.store) "Tag" (list_to_set ["3"; "1"; "9"])
  = [6%positive]
  /\ read_attr Legacy.objects (VRef 6%positive) "id" = Ok (VInt 1)
  /\ fst (populate (H := Legacy.store) Blog.ArticleResource
            (payload ["3"; "1"; "9"]) (Some 1%positive) world)
     = Raise (ValidationError
                [("tags", "Relationship " +:+ dquote +:+ "tags" +:+ dquote
                          +:+ " object IDs 1, 3, 9 do not exist")])
  /\ fst (populate (H := Legacy.store) Blog.ArticleResource
            (payload ["1"]) (Some 1%positive) world)
     = Raise (ValidationError
                [("tags", "Relationship " +:+ dquote +:+ "tags" +:+ dquote
                          +:+ " object IDs 1 do not exist")]).
Proof.
  intros world payload. repeat split; vm_compute; reflexivity.
Qed.

(** C5 (the code departs from the claim): article 5 has no author and the
    payload names author "4", who exists.  The call succeeds, but the
    target is assigned with [setattr(obj, f.attname, o)]: the author object
    lands on "author_id", the relationship field "author" is still None,
    and serializing the populated resource gives a null "author", where the
    claim has the target assigned onto the relationship field.  The other
    half of the claim holds: for author "99", who does not exist, the call
    raises ValidationError keyed by "author" with the id in the message. *)
Theorem populate_to_one_leaves_relationship_field :
  let payload i := Payload (Some [])
                           (Some [("author", DataOne (Identifier "author" i))]) in
  let r := mkResource Blog.ArticleResource (VRef 5%positive) in
  let st' := State (write_attr 5%positive "author_id" (VRef 4%positive) Blog.objects)
                   [Frame 5%positive None None] in
  get_by_pk (Store := Blog.store) "Author" (VStr "4") = Some 4%positive
  /\ read_attr Blog.objects (VRef 5%positive) "author" = Ok VNone
  /\ populate (H := Blog.store) Blog.ArticleResource (payload "4")
       (Some 5%positive) Blog.world
     = (Ok r, st')
  /\ read_attr (heap st') (VRef 5%positive) "author_id" = Ok (VRef 4%positive)
  /\ read_attr (heap st') (VRef 5%positive) "author" = Ok VNone
  /\ (exists out rels,
        serializable (H := Club.router) (heap st') r None None = (Ok out, None)
        /\ dict_get "relationships" out = Some (DDict rels)
        /\ dict_get "author" rels = Some (DDict [("data", DVal VNone)]))
  /\ populate (H := Blog.store) Blog.ArticleResource (payload "99")
       (Some 5%positive) Blog.world
     = (Raise (ValidationError
                 [("author", "Relationship " +:+ dquote +:+ "author" +:+ dquote
                             +:+ " object ID 99 does not exist")]),
        State Blog.objects [Frame 5%positive None None]).
Proof.
  intros payload r st'.
  split; [reflexivity|]. split; [reflexivity|]. split; [reflexivity|].
  split; [reflexivity|]. split; [reflexivity|]. split; [|reflexivity].
  do 2 eexists. split; [reflexivity|]. split; reflexivity.
Qed.

(** ** Deferred writes *)

(** There is one frame per call and the to-many step rebinds its
    [accessor_name] and [qs]: whatever an earlier relationship had bound is
    gone. *)
Lemma bound_frames_lookup (fid : nat) (a : string) (qs : list loc)
  (frs : list frame) (fr : frame) :
  frs !! fid = Some fr ->
  bound_frames fid a qs frs !! fid = Some (Frame (fr_obj fr) (Some a) (Some qs)).
Proof.
  intros Hfr. unfold bound_frames.
  rewrite !list_lookup_alter, Hfr. rewrite !decide_True by reflexivity.
  reflexivity.
Qed.

(** The closure of a frame appends the fetched targets the frame holds to
    the accessor the frame names, on the frame's own object when no parent
    is passed. *)
Lemma save_appends (fid : nat) (self parent : value) (st : state) (o p : loc)
  (a : string) (qs members : list loc) :
  frames st !! fid = Some (Frame o (Some a) (Some qs)) ->
  match parent with VNone => VRef o | _ => parent end = VRef p ->
  read_attr (heap st) (VRef p) a = Ok (VManager members) ->
  save fid self parent st
  = (Ok tt, State (write_attr p a (VManager (members ++ qs)) (heap st)) (frames st)).
Proof.
  intros Hfr Hp Hm. unfold save, bind, ret, raise, getattr. rewrite Hfr. simpl.
  rewrite Hp, Hm. reflexivity.
Qed.

(** C3 (the code departs from the claim): a payload with two to-many
    relationships, "tags" and "categories", whose ids all exist.  Each step
    assigns its closure to the one attribute [save_relationships] of the
    object, and both closures read the same variables of the call.  What is
    left is a single closure for "categories": invoking it appends category
    3 and nothing reaches "tags", where the claim has a closure for every
    to-many relationship of the payload. *)
Theorem populate_keeps_one_closure :
  let data := Payload (Some [("title", VStr "New")])
                      (Some [("tags", Blog.tag_ids ["1"]);
                             ("categories", DataMany [Identifier "category" "7"])]) in
  let closure := write_attr 1%positive "save_relationships" (VFunc 0) in
  let st1 :=
    State (closure (closure (write_attr 1%positive "title" (VStr "New") Blog.objects)))
          [Frame 1%positive (Some "categories") (Some [3%positive])] in
  let st2 :=
    State (write_attr 1%positive "categories" (VManager [3%positive]) (heap st1))
          (frames st1) in
  populate (H := Blog.store) Blog.ArticleResource data (Some 1%positive) Blog.world
  = (Ok (mkResource Blog.ArticleResource (VRef 1%positive)), st1)
  /\ read_attr (heap st1) (VRef 1%positive) "save_relationships" = Ok (VFunc 0)
  /\ read_attr (heap st1) (VRef 1%positive) "tags" = Ok (VManager [])
  /\ call_save_relationships 1%positive (VRef 1%positive) VNone st1 = (Ok tt, st2)
  /\ read_attr (heap st2) (VRef 1%positive) "categories" = Ok (VManager [3%positive])
  /\ read_attr (heap st2) (VRef 1%positive) "tags" = Ok (VManager []).
Proof.
  intros data closure st1 st2. repeat split; reflexivity.
Qed.

(** ** Populate is not atomic *)

Lemma populate_attribute_run (cls : resource_class) (o : loc)
  (kv : string * value) (st : state) :
  populate_attribute cls o kv st =
  match get_field (model cls) (fst kv) with
  | Some f => (Ok tt, State (write_attr o (f_attname f) (snd kv) (heap st)) (frames st))
  | None => (Raise (FieldDoesNotExist (fst kv)), st)
  end.
Proof.
  unfold populate_attribute, lookup_field_of, bind.
  destruct (get_field (model cls) (fst kv)); reflexivity.
Qed.

(** The attribute loop can only raise FieldDoesNotExist. *)
Lemma populate_attributes_raise (cls : resource_class) (o : loc)
  (attrs : dict value) (st st' : state) (e : exn) :
  for_each attrs (populate_attribute cls o) st = (Raise e, st') ->
  exists k, e = FieldDoesNotExist k.
Proof.
  revert st. induction attrs as [|kv attrs IH]; intros st; simpl.
  - discriminate.
  - unfold bind. rewrite populate_attribute_run.
    destruct (get_field (model cls) (fst kv)).
    + apply IH.
    + intros [= <- <-]. eauto.
Qed.

(** Entries that are stored elsewhere leave an attribute as it is. *)
Lemma populate_attributes_preserve (cls : resource_class) (o : loc)
  (attrs : dict value) (a : string) (st st' : state) (r : result unit) :
  (forall k' v' f', (k', v') ∈ attrs -> get_field (model cls) k' = Some f' ->
                    f_attname f' <> a) ->
  for_each attrs (populate_attribute cls o) st = (r, st') ->
  read_attr (heap st') (VRef o) a = read_attr (heap st) (VRef o) a.
Proof.
  revert st. induction attrs as [|[k' v'] attrs IH]; intros st Hother; simpl.
  - intros [= <- <-]. reflexivity.
  - unfold bind. rewrite populate_attribute_run. simpl.
    destruct (get_field (model cls) k') as [f'|] eqn:Ef.
    + intros Hrun. rewrite (IH _ (fun k v f Hin => Hother k v f (list_elem_of_further _ _ _ Hin)) Hrun).
      simpl. apply read_attr_write_other. right.
      apply (Hother k' v' f'); [left|assumption].
    + intros [= <- <-]. reflexivity.
Qed.

(** After the attribute loop an attribute holds the value of the last entry
    stored under it. *)
Lemma populate_attributes_last (cls : resource_class) (o : loc)
  (a1 a2 : dict value) (k : string) (v : value) (f : field) (st st' : state) :
  get_field (model cls) k = Some f ->
  (forall k' v' f', (k', v') ∈ a2 -> get_field (model cls) k' = Some f' ->
                    f_attname f' <> f_attname f) ->
  for_each (a1 ++ (k, v) :: a2) (populate_attribute cls o) st = (Ok tt, st') ->
  read_attr (heap st') (VRef o) (f_attname f) = Ok v.
Proof.
  intros Hf Hother. rewrite for_each_app. unfold bind at 1.
  destruct (for_each a1 _ st) as [[[]|e] s1]; [|discriminate].
  simpl. unfold bind. rewrite populate_attribute_run. simpl. rewrite Hf.
  intros Hrun. rewrite (populate_attributes_preserve _ _ _ _ _ _ _ Hother Hrun).
  simpl. apply read_attr_write_same.
Qed.

(** A relationship step, whatever its outcome, leaves every attribute but
    the one it assigns as it is. *)
Lemma populate_relationship_preserve `{Store} (cls : resource_class) (fid : nat)
  (o : loc) (kv : string * rel_data) (a : string) (st st' : state)
  (r : result unit) :
  written_by cls kv <> Some a ->
  populate_relationship cls fid o kv st = (r, st') ->
  read_attr (heap st') (VRef o) a = read_attr (heap st) (VRef o) a.
Proof.
  unfold written_by, populate_relationship, lookup_field_of, found_ids,
    set_accessor_name, set_qs, setattr, bind, ret, raise, modify.
  intros Hw Hrun. simpl in *.
  repeat (case_match; simpl in *; simplify_eq); try reflexivity;
    apply read_attr_write_other; right; congruence.
Qed.

Lemma populate_relationships_preserve `{Store} (cls : resource_class) (fid : nat)
  (o : loc) (rels : dict rel_data) (a : string) (st st' : state)
  (r : result unit) :
  (forall kv, kv ∈ rels -> written_by cls kv <> Some a) ->
  for_each rels (populate_relationship cls fid o) st = (r, st') ->
  read_attr (heap st') (VRef o) a = read_attr (heap st) (VRef o) a.
Proof.
  revert st. induction rels as [|kv rels IH]; intros st Hw; simpl.
  - intros [= <- <-]. reflexivity.
  - unfold bind.
    destruct (populate_relationship cls fid o kv st) as [[[]|e] s1] eqn:Ekv.
    + intros Hrun.
      rewrite (IH _ (fun kv' Hin => Hw kv' (list_elem_of_further _ _ _ Hin)) Hrun).
      apply (populate_relationship_preserve _ _ _ _ _ _ _ _ (Hw kv ltac:(left)) Ekv).
    + intros [= <- <-].
      apply (populate_relationship_preserve _ _ _ _ _ _ _ _ (Hw kv ltac:(left)) Ekv).
Qed.

(** C10: [populate] on an existing object writes every attribute of the
    payload before it looks at a relationship and undoes nothing when it
    raises: after a call that ended in ValidationError, an attribute of the
    payload still holds the value the payload gave it (the last entry stored
    under that attribute, as long as no relationship of the payload assigns
    the same attribute). *)
Theorem populate_not_atomic `{Store} (cls : resource_class) (data : payload)
  (o : loc) (st st' : state) (errors : list (string * string))
  (a1 a2 : dict value) (k : string) (v : value) (f : field) :
  populate cls data (Some o) st = (Raise (ValidationError errors), st') ->
  p_attributes data = Some (a1 ++ (k, v) :: a2) ->
  get_field (model cls) k = Some f ->
  (forall k' v' f', (k', v') ∈ a2 -> get_field (model cls) k' = Some f' ->
                    f_attname f' <> f_attname f) ->
  (forall kv, kv ∈ default [] (p_relationships data) ->
              written_by cls kv <> Some (f_attname f)) ->
  read_attr (heap st') (VRef o) (f_attname f) = Ok v.
Proof.
  intros Hrun Hattrs Hf Hlater Hrels.
  unfold populate, populate_begin in Hrun. rewrite Hattrs in Hrun.
  unfold bind, ret, new_frame in Hrun. simpl in Hrun.
  destruct (for_each (a1 ++ (k, v) :: a2) (populate_attribute cls o) _)
    as [[[]|e] s1] eqn:Eattrs.
  - pose proof (populate_attributes_last _ _ _ _ _ _ _ _ _ Hf Hlater Eattrs) as Hv.
    simpl in Hrun.
    destruct (for_each (default [] (p_relationships data)) _ s1)
      as [[[]|e] s2] eqn:Eloop; [discriminate|].
    injection Hrun as -> ->.
    rewrite (populate_relationships_preserve _ _ _ _ _ _ _ _ Hrels Eloop).
    exact Hv.
  - injection Hrun as -> ->.
    destruct (populate_attributes_raise _ _ _ _ _ _ Eattrs) as [k0 Hk0].
    discriminate.
Qed.

Lemma populate_not_atomic_example :
  let st' := State (write_attr 1%positive "title" (VStr "New") Blog.objects)
                   [Frame 1%positive None None] in
  populate (H := Blog.store) Blog.ArticleResource
    (Payload (Some [("title", VStr "New")])
             (Some [("author", DataOne (Identifier "author" "99"))]))
    (Some 1%positive) Blog.world
  = (Raise (ValidationError
              [("author", one_message "author" "99")]),
     st')
  /\ read_attr Blog.objects (VRef 1%positive) "title" = Ok (VStr "Old")
  /\ read_attr (heap st') (VRef 1%positive) "title" = Ok (VStr "New").
Proof.
  intros st'. split; [reflexivity|]. split; [reflexivity|].
  apply (populate_not_atomic (H := Blog.store) Blog.ArticleResource
           (Payload (Some [("title", VStr "New")])
                    (Some [("author", DataOne (Identifier "author" "99"))]))
           1%positive Blog.world st'
           [("author", one_message "author" "99")]
           [] [] "title" (VStr "New") (Blog.column "title")
           eq_refl eq_refl eq_refl).
  - intros k' v' f' Hin. inversion Hin.
  - intros kv Hin. apply list_elem_of_singleton in Hin. subst kv. discriminate.
Defined.

(** ** Dictionaries *)

Lemma dict_get_set_same {A} (k : string) (a : A) (d : dict A) :
  dict_get k (dict_set k a d) = Some a.
Proof.
  induction d as [|[k' a'] d IH]; simpl.
  - rewrite decide_True by reflexivity. reflexivity.
  - destruct (decide (k = k')) as [->|Hne]; simpl.
    + rewrite decide_True by reflexivity. reflexivity.
    + rewrite decide_False by assumption. exact IH.
Qed.

Lemma dict_get_set_other {A} (k k' : string) (a : A) (d : dict A) :
  k <> k' -> dict_get k' (dict_set k a d) = dict_get k' d.
Proof.
  intros Hne. induction d as [|[k0 a0] d IH]; simpl.
  - rewrite decide_False by congruence. reflexivity.
  - destruct (decide (k = k0)) as [->|Hk]; simpl.
    + rewrite !decide_False by congruence. reflexivity.
    + destruct (decide (k' = k0)); [reflexivity|exact IH].
Qed.

Lemma dict_get_absent {A} (k : string) (d : dict A) :
  k ∉ dict_keys d -> dict_get k d = None.
Proof.
  induction d as [|[k' a'] d IH]; simpl; intros Hk.
  - reflexivity.
  - apply not_elem_of_cons in Hk. destruct Hk as [Hne Hk].
    rewrite decide_False by assumption. exact (IH Hk).
Qed.

(** ** Serialization *)

(** Every declared attribute is in the output with the value read off the
    object; other keys are as they were. *)
Lemma serializable_attributes_get (h : gmap loc (gmap string value)) (obj : value)
  (names : list string) :
  forall (acc attrs : dict doc),
    serializable_attributes h obj names acc = Ok attrs ->
    forall k,
      (k ∈ names /\ exists v, read_attr h obj k = Ok v
                              /\ dict_get k attrs = Some (DVal v))
      \/ ((k ∉ names) /\ dict_get k attrs = dict_get k acc).
Proof.
  induction names as [|a names IH]; intros acc attrs; simpl.
  - intros [= <-] k. right. split; [apply not_elem_of_nil|reflexivity].
  - unfold rbind. destruct (read_attr h obj a) as [va|e] eqn:Ea; [|discriminate].
    intros Hrun k. destruct (IH _ _ Hrun k) as [[Hin Hv]|[Hnin Hget]].
    + left. split; [right; assumption|exact Hv].
    + destruct (decide (a = k)) as [->|Hne].
      * left. split; [left|]. exists va. split; [assumption|].
        rewrite Hget. apply dict_get_set_same.
      * right. split.
        -- apply not_elem_of_cons. split; [congruence|assumption].
        -- rewrite Hget. apply dict_get_set_other. assumption.
Qed.

(** Every declared relationship is in the output with what its pass of the
    loop made; other keys are as they were. *)
Lemma serializable_relationships_get (h : gmap loc (gmap string value))
  (obj : value) (rels : dict relationship) :
  NoDup (dict_keys rels) ->
  forall (acc out : dict doc),
    serializable_relationships h obj rels acc = Ok out ->
    forall name,
      match dict_get name rels with
      | Some rel => exists d, serializable_relationship h obj name rel = Ok d
                              /\ dict_get name out = Some d
      | None => dict_get name out = dict_get name acc
      end.
Proof.
  induction rels as [|[k rel] rels IH]; intros Hnd acc out; simpl.
  - intros [= <-] name. reflexivity.
  - apply NoDup_cons in Hnd. destruct Hnd as [Hk Hnd].
    unfold rbind. destruct (serializable_relationship h obj k rel) as [d|e] eqn:Ed;
      [|discriminate].
    intros Hrun name. specialize (IH Hnd _ _ Hrun name).
    destruct (decide (name = k)) as [->|Hne].
    + rewrite (dict_get_absent k rels Hk) in IH.
      exists d. split; [assumption|]. rewrite IH. apply dict_get_set_same.
    + destruct (dict_get name rels); [exact IH|].
      rewrite IH. apply dict_get_set_other. congruence.
Qed.

(** A successful [serializable] carries the attributes and, when there are
    any, the relationships the two loops built. *)
Lemma serializable_ok `{Router} (h : gmap loc (gmap string value))
  (self : Resource) (req : option request) (inc inc' : option Included)
  (out : dict doc) :
  serializable h self req inc = (Ok out, inc') ->
  exists attrs rels,
    serializable_attributes h (r_obj self) (attributes (r_cls self)) [] = Ok attrs
    /\ serializable_relationships h (r_obj self) (relationships (r_cls self)) []
       = Ok rels
    /\ dict_get "attributes" out = Some (DDict attrs)
    /\ (rels <> [] -> dict_get "relationships" out = Some (DDict rels)).
Proof.
  unfold serializable, bind, lift, ret, get_identifier, rbind.
  destruct (serializable_attributes _ _ _ _) as [attrs|] eqn:Ea; [|discriminate].
  destruct (serializable_relationships _ _ _ _) as [rels|] eqn:Er; [|discriminate].
  intros Hrun. exists attrs, rels. split; [reflexivity|]. split; [reflexivity|].
  destruct inc as [i0|];
    [destruct (for_each (paths i0) _ i0) as [[[]|] i1]; [|discriminate]|];
    (destruct (bound_viewset (r_cls self));
       [destruct (get_self_link h self req); [|discriminate]|]);
    (destruct (resource_id h self); [|discriminate]);
    destruct rels; simplify_eq; (split; [reflexivity|]);
    first [congruence | intros _; reflexivity].
Qed.

(** C6: in the output of [serializable], a declared to-one relationship has
    a "data" entry: the identifier of the related object, with the type of
    the related class and the id as a string, when there is a related
    object, and None when there is none.  The entry is there in both
    cases. *)
Theorem serializable_to_one `{Router} (h : gmap loc (gmap string value))
  (self : Resource) (req : option request) (inc inc' : option Included)
  (out : dict doc) (name : string) (rel : relationship) :
  NoDup (dict_keys (relationships (r_cls self))) ->
  dict_get name (relationships (r_cls self)) = Some rel ->
  collection rel = false ->
  serializable h self req inc = (Ok out, inc') ->
  exists v rels,
    read_attr h (r_obj self) name = Ok v
    /\ dict_get "relationships" out = Some (DDict rels)
    /\ match v with
       | VNone => dict_get name rels = Some (DDict [("data", DVal VNone)])
       | _ =>
           exists i,
             resource_id h (mkResource (resource_class_of rel) v) = Ok i
             /\ dict_get name rels
                = Some (DDict
                          [("data",
                            DDict [("type", DVal (VStr (api_type (resource_class_of rel))));
                                   ("id", DVal (VStr (str i)))])])
       end.
Proof.
  intros Hnd Hrel Hcol Hrun.
  destruct (serializable_ok _ _ _ _ _ _ Hrun) as (attrs & rels & _ & Hrels & _ & Hout).
  pose proof (serializable_relationships_get _ _ _ Hnd _ _ Hrels name) as Hget.
  rewrite Hrel in Hget. destruct Hget as (d & Hd & Hname).
  assert (Hne : rels <> []) by (intros ->; discriminate).
  unfold serializable_relationship in Hd. rewrite Hcol in Hd.
  unfold rbind, get_identifier, rbind in Hd.
  destruct (read_attr h (r_obj self) name) as [v|e]; [|discriminate].
  exists v, rels. split; [reflexivity|]. split; [exact (Hout Hne)|].
  destruct v; simpl in Hd;
    try (destruct (resource_id h _) as [i|]; [|discriminate];
         exists i; split; [reflexivity|]);
    congruence.
Qed.

(** Article 1 has an author, article 5 has none. *)
Lemma serializable_to_one_examples :
  (exists out rels,
     serializable (H := Club.router) Blog.objects
       (mkResource Blog.ArticleResource (VRef 1%positive)) None None
     = (Ok out, None)
     /\ dict_get "relationships" out = Some (DDict rels)
     /\ dict_get "author" rels
        = Some (DDict [("data", DDict [("type", DVal (VStr "author"));
                                       ("id", DVal (VStr "4"))])]))
  /\ (exists out rels,
        serializable (H := Club.router) Blog.objects
          (mkResource Blog.ArticleResource (VRef 5%positive)) None None
        = (Ok out, None)
        /\ dict_get "relationships" out = Some (DDict rels)
        /\ dict_get "author" rels = Some (DDict [("data", DVal VNone)])).
Proof.
  assert (Hnd : NoDup (dict_keys (relationships Blog.ArticleResource))).
  { apply (bool_decide_unpack _). reflexivity. }
  split.
  - destruct (serializable_to_one (H := Club.router) Blog.objects
                (mkResource Blog.ArticleResource (VRef 1%positive)) None None None
                _ "author" (Relationship Blog.AuthorResource false None)
                Hnd eq_refl eq_refl eq_refl)
      as (v & rels & Hv & Hout & Hdata).
    vm_compute in Hv. injection Hv as <-.
    destruct Hdata as (i & Hi & Hdata). vm_compute in Hi. injection Hi as <-.
    eexists. exists rels. split; [reflexivity|]. split; [exact Hout|exact Hdata].
  - destruct (serializable_to_one (H := Club.router) Blog.objects
                (mkResource Blog.ArticleResource (VRef 5%positive)) None None None
                _ "author" (Relationship Blog.AuthorResource false None)
                Hnd eq_refl eq_refl eq_refl)
      as (v & rels & Hv & Hout & Hdata).
    vm_compute in Hv. injection Hv as <-.
    eexists. exists rels. split; [reflexivity|]. split; [exact Hout|exact Hdata].
Defined.

(** ** Attributes, there and back *)

(** After a successful [populate] the object of the resource holds, under
    the attribute name of the field, the value the payload gave. *)
Lemma populate_ok_attribute `{Store} (cls : resource_class) (data : payload)
  (obj : option loc) (st st' : state) (r : Resource)
  (a1 a2 : dict value) (k : string) (v : value) (f : field) :
  populate cls data obj st = (Ok r, st') ->
  p_attributes data = Some (a1 ++ (k, v) :: a2) ->
  get_field (model cls) k = Some f ->
  (forall k' v' f', (k', v') ∈ a2 -> get_field (model cls) k' = Some f' ->
                    f_attname f' <> f_attname f) ->
  (forall kv, kv ∈ default [] (p_relationships data) ->
              written_by cls kv <> Some (f_attname f)) ->
  r_cls r = cls /\ read_attr (heap st') (r_obj r) (f_attname f) = Ok v.
Proof.
  intros Hrun Hattrs Hf Hlater Hrels.
  unfold populate, populate_begin in Hrun. rewrite Hattrs in Hrun.
  unfold bind, ret, new_frame, alloc in Hrun.
  destruct obj as [o|]; simpl in Hrun.
  all: match type of Hrun with
       | context [for_each ?l (populate_attribute ?c ?o) ?s] =>
           destruct (for_each l (populate_attribute c o) s)
             as [[[]|e] s1] eqn:Eattrs; [|discriminate];
           pose proof (populate_attributes_last _ _ _ _ _ _ _ _ _ Hf Hlater Eattrs) as Hv;
           simpl in Hrun;
           destruct (for_each (default [] (p_relationships data)) _ s1)
             as [[[]|e] s2] eqn:Eloop; [|discriminate];
           injection Hrun as <- <-; split; [reflexivity|]; simpl;
           rewrite (populate_relationships_preserve _ _ _ _ _ _ _ _ Hrels Eloop);
           exact Hv
       end.
Qed.

(** C9, as the code has it: an attribute the class declares, whose model
    field is stored under the attribute's own name, and that no later entry
    of the payload (attribute or relationship) is stored over, comes back
    from [serializable] with the value [populate] was given. *)
Theorem populate_serializable_round_trip `{Store} `{Router}
  (cls : resource_class) (data : payload) (obj : option loc) (st st' : state)
  (r : Resource) (req : option request) (inc inc' : option Included)
  (out : dict doc) (a1 a2 : dict value) (k : string) (v : value) (f : field) :
  k ∈ attributes cls ->
  p_attributes data = Some (a1 ++ (k, v) :: a2) ->
  get_field (model cls) k = Some f ->
  f_attname f = k ->
  (forall k' v' f', (k', v') ∈ a2 -> get_field (model cls) k' = Some f' ->
                    f_attname f' <> k) ->
  (forall kv, kv ∈ default [] (p_relationships data) ->
              written_by cls kv <> Some k) ->
  populate cls data obj st = (Ok r, st') ->
  serializable (heap st') r req inc = (Ok out, inc') ->
  exists attrs,
    dict_get "attributes" out = Some (DDict attrs)
    /\ dict_get k attrs = Some (DVal v).
Proof.
  intros Hdecl Hattrs Hf Hname Hlater Hrels Hpop Hser.
  rewrite <- Hname in Hlater, Hrels.
  destruct (populate_ok_attribute _ _ _ _ _ _ _ _ _ _ _ Hpop Hattrs Hf Hlater Hrels)
    as [Hcls Hv].
  rewrite Hname in Hv.
  destruct (serializable_ok _ _ _ _ _ _ Hser) as (attrs & rels & Ha & _ & Hout & _).
  exists attrs. split; [exact Hout|].
  rewrite Hcls in Ha.
  destruct (serializable_attributes_get _ _ _ _ _ Ha k) as [[_ (v' & Hv' & Hget)]|[Hnin _]].
  - rewrite Hv in Hv'. injection Hv' as <-. exact Hget.
  - contradiction.
Qed.

(** Populate with the attributes [{"title": "Ada"}], then serialize. *)
Lemma populate_serializable_ada :
  let data := Payload (Some [("title", VStr "Ada")]) None in
  let r := mkResource Blog.ArticleResource (VRef 5%positive) in
  let st' := State (write_attr 5%positive "title" (VStr "Ada") Blog.objects)
                   [Frame 5%positive None None] in
  exists out,
    populate (H := Blog.store) Blog.ArticleResource data (Some 5%positive) Blog.world
    = (Ok r, st')
    /\ serializable (H := Club.router) (heap st') r None None = (Ok out, None)
    /\ exists attrs,
         dict_get "attributes" out = Some (DDict attrs)
         /\ dict_get "title" attrs = Some (DVal (VStr "Ada")).
Proof.
  intros data r st'. eexists. split; [reflexivity|]. split; [reflexivity|].
  apply (populate_serializable_round_trip (H := Blog.store) (H0 := Club.router)
           Blog.ArticleResource data (Some 5%positive) Blog.world st' r
           None None None _ [] [] "title" (VStr "Ada") (Blog.column "title"));
    try reflexivity.
  - left.
  - intros k' v' f' Hin. inversion Hin.
  - intros kv Hin. inversion Hin.
Defined.

(** C9 as stated fails where the class declares as an attribute a field
    that is stored under another name.  "author" is a foreign key, stored
    under "author_id": [populate] with [{"author": 5}] writes "author_id",
    and [serializable] reads "author", which still holds the author the
    article had. *)
Lemma populate_serializable_attname_counterexample :
  let r := mkResource Blog.ArticleRowResource (VRef 1%positive) in
  let st' := State (write_attr 1%positive "author_id" (VInt 5) Blog.objects)
                   [Frame 1%positive None None] in
  let attrs := [("title", DVal (VStr "Old")); ("author", DVal (VRef 4%positive))] in
  let out := [("attributes", DDict attrs);
              ("type", DVal (VStr "article")); ("id", DVal (VStr "1"))] in
  "author" ∈ attributes Blog.ArticleRowResource
  /\ populate (H := Blog.store) Blog.ArticleRowResource
       (Payload (Some [("author", VInt 5)]) None) (Some 1%positive) Blog.world
     = (Ok r, st')
  /\ serializable (H := Club.router) (heap st') r None None = (Ok out, None)
  /\ dict_get "attributes" out = Some (DDict attrs)
  /\ dict_get "author" attrs <> Some (DVal (VInt 5)).
Proof.
  intros r st' attrs out. split; [right; left|].
  repeat split; try reflexivity. discriminate.
Qed.

(** * Further properties *)

(** ** What [resolve_include] adds *)

(** X1: when the relationship a path starts with has no members, the call
    succeeds and the include set is as it was; the rest of the path is not
    looked at, declared or not. *)
Theorem resolve_include_no_members (h : gmap loc (gmap string value))
  (resource : Resource) (s : string) (rel : relationship) (inc : Included) :
  dict_get (fst (split_dot s)) (relationships (r_cls resource)) = Some rel ->
  read_attr h (r_obj resource) (fst (split_dot s)) = Ok (VManager []) ->
  resolve_include h resource (PathStr s) inc = (Ok tt, inc).
Proof.
  intros Hrel Hm. unfold resolve_include. cbn [path_size].
  rewrite resolve_include_at_str, Hrel, Hm. reflexivity.
Qed.

Lemma resolve_include_no_members_example :
  dict_get "ghost" (relationships Blog.ArticleResource) = None
  /\ resolve_include Blog.objects (mkResource Blog.ArticleResource (VRef 1%positive))
       (PathStr "tags.ghost") (mkIncluded ["tags.ghost"] [])
     = (Ok tt, mkIncluded ["tags.ghost"] []).
Proof.
  split; [reflexivity|].
  apply (resolve_include_no_members Blog.objects
           (mkResource Blog.ArticleResource (VRef 1%positive)) "tags.ghost"
           (Relationship Blog.TagResource true None));
    reflexivity.
Defined.

(** X2: a path that starts with a declared relationship whose attribute on
    the object is not a manager (a to-one relationship: a related object or
    None) raises AttributeError, and the include set is as it was. *)
Theorem resolve_include_not_a_manager (h : gmap loc (gmap string value))
  (resource : Resource) (s : string) (rel : relationship) (v : value)
  (inc : Included) :
  dict_get (fst (split_dot s)) (relationships (r_cls resource)) = Some rel ->
  read_attr h (r_obj resource) (fst (split_dot s)) = Ok v ->
  (forall objs, v <> VManager objs) ->
  resolve_include h resource (PathStr s) inc = (Raise (AttributeError "all"), inc).
Proof.
  intros Hrel Hv Hnm. unfold resolve_include. cbn [path_size].
  rewrite resolve_include_at_str, Hrel, Hv.
  destruct v; try reflexivity. exfalso. exact (Hnm _ eq_refl).
Qed.

Lemma resolve_include_not_a_manager_examples :
  resolve_include Blog.objects (mkResource Blog.ArticleResource (VRef 1%positive))
    (PathStr "author") (mkIncluded ["author"] [])
  = (Raise (AttributeError "all"), mkIncluded ["author"] [])
  /\ resolve_include Blog.objects (mkResource Blog.ArticleResource (VRef 5%positive))
       (PathStr "author") (mkIncluded ["author"] [])
     = (Raise (AttributeError "all"), mkIncluded ["author"] []).
Proof.
  split.
  - apply (resolve_include_not_a_manager Blog.objects
             (mkResource Blog.ArticleResource (VRef 1%positive)) "author"
             (Relationship Blog.AuthorResource false None) (VRef 4%positive));
      [reflexivity|reflexivity|discriminate].
  - apply (resolve_include_not_a_manager Blog.objects
             (mkResource Blog.ArticleResource (VRef 5%positive)) "author"
             (Relationship Blog.AuthorResource false None) VNone);
      [reflexivity|reflexivity|discriminate].
Defined.

(** X3: a path without a dot never adds anything, whatever the outcome, and
    the only way it succeeds is that the relationship has no members. *)
Theorem resolve_include_one_segment (h : gmap loc (gmap string value))
  (resource : Resource) (s : string) (inc : Included) :
  snd (split_dot s) = None ->
  snd (resolve_include h resource (PathStr s) inc) = inc
  /\ (fst (resolve_include h resource (PathStr s) inc) = Ok tt ->
      read_attr h (r_obj resource) s = Ok (VManager [])).
Proof.
  intros Hrest.
  assert (Hhead : fst (split_dot s) = s).
  { clear -Hrest. induction s as [|c s IH]; simpl in *; [reflexivity|].
    destruct (decide (c = "."%char)); [discriminate|].
    destruct (split_dot s) as [hd r]. simpl in *. rewrite (IH Hrest). reflexivity. }
  unfold resolve_include. cbn [path_size].
  rewrite resolve_include_at_str, Hhead.
  destruct (dict_get s _) as [rel|]; [|split; [reflexivity|discriminate]].
  destruct (read_attr h (r_obj resource) s) as [[| | | |[|o objs]|]|e];
    try (split; [reflexivity|discriminate]).
  - split; reflexivity.
  - unfold rest_of. rewrite Hrest. simpl. split; [reflexivity|discriminate].
Qed.

Lemma resolve_include_one_segment_example :
  snd (resolve_include Blog.objects (mkResource Blog.ArticleResource (VRef 5%positive))
         (PathStr "tags") (mkIncluded ["tags"] []))
  = mkIncluded ["tags"] [].
Proof.
  apply (proj1 (resolve_include_one_segment Blog.objects
                  (mkResource Blog.ArticleResource (VRef 5%positive)) "tags"
                  (mkIncluded ["tags"] []) eq_refl)).
Defined.

Lemma included_add_grows (h : gmap loc (gmap string value)) (r : Resource)
  (inc : Included) :
  fst (included_add h r inc) = Ok tt
  /\ paths (snd (included_add h r inc)) = paths inc
  /\ (members (snd (included_add h r inc)) = members inc
      \/ members (snd (included_add h r inc)) = members inc ++ [r]).
Proof.
  unfold included_add, modify. simpl.
  destruct (decide (_ ∈ _)); simpl; auto.
Qed.

Lemma resolve_include_at_grows (h : gmap loc (gmap string value))
  (resource : Resource) (n : nat) :
  forall (path : path_arg) (inc inc' : Included) (r : result unit),
    resolve_include_at n h resource path inc = (r, inc') ->
    paths inc' = paths inc
    /\ exists added,
         members inc' = members inc ++ added
         /\ Forall (direct_member h resource) added.
Proof.
  induction n as [|n IH]; intros path inc inc' r.
  - simpl. intros [= <- <-]. split; [reflexivity|]. exists [].
    rewrite app_nil_r. auto.
  - destruct path as [s|];
      [|simpl; intros [= <- <-]; split; [reflexivity|]; exists [];
        rewrite app_nil_r; auto].
    rewrite resolve_include_at_str.
    destruct (dict_get _ _) as [rel|] eqn:Hrel;
      [|intros [= <- <-]; split; [reflexivity|]; exists [];
        rewrite app_nil_r; auto].
    destruct (read_attr h (r_obj resource) _) as [v|e] eqn:Hm;
      [|intros [= <- <-]; split; [reflexivity|]; exists [];
        rewrite app_nil_r; auto].
    destruct v as [| | | |objs|];
      try (intros [= <- <-]; split; [reflexivity|]; exists [];
           rewrite app_nil_r; auto).
    assert (Hloop : forall todo, todo ⊆ objs ->
              forall inc0 inc1 r0,
                for_each todo (fun obj =>
                  resolve_include_at n h resource (rest_of s) ;;
                  included_add h (mkResource (resource_class_of rel) (VRef obj))) inc0
                = (r0, inc1) ->
                paths inc1 = paths inc0
                /\ exists added,
                     members inc1 = members inc0 ++ added
                     /\ Forall (direct_member h resource) added).
    { induction todo as [|o todo IHt]; intros Hsub inc0 inc1 r0; simpl.
      - intros [= <- <-]. split; [reflexivity|]. exists [].
        rewrite app_nil_r. auto.
      - unfold bind at 1. unfold bind at 1.
        destruct (resolve_include_at n h resource (rest_of s) inc0)
          as [[[]|e1] i1] eqn:Erec.
        + destruct (IH _ _ _ _ Erec) as (Hp1 & a1 & Hm1 & Hd1).
          pose proof (included_add_grows h
                        (mkResource (resource_class_of rel) (VRef o)) i1)
            as (Hok & Hp2 & Hm2).
          destruct (included_add h _ i1) as [r2 i2]. simpl in *. subst r2.
          intros Hrest.
          assert (Hsub' : todo ⊆ objs).
          { intros x Hx. apply Hsub. right. exact Hx. }
          destruct (IHt Hsub' _ _ _ Hrest) as (Hp3 & a3 & Hm3 & Hd3).
          split; [congruence|].
          assert (Hdirect : direct_member h resource
                              (mkResource (resource_class_of rel) (VRef o))).
          { exists (fst (split_dot s)), rel, objs, o.
            repeat split; try assumption. apply Hsub. left. }
          destruct Hm2 as [Hm2|Hm2].
          * exists (a1 ++ a3). split.
            -- rewrite Hm3, Hm2, Hm1, app_assoc. reflexivity.
            -- apply Forall_app. auto.
          * exists (a1 ++ [mkResource (resource_class_of rel) (VRef o)] ++ a3).
            split.
            -- rewrite Hm3, Hm2, Hm1, <- !app_assoc. reflexivity.
            -- apply Forall_app. split; [assumption|].
               apply Forall_app. split; [|assumption].
               constructor; [assumption|constructor].
        + intros [= <- <-]. exact (IH _ _ _ _ Erec). }
    intros Hrun. exact (Hloop objs (fun x Hx => Hx) _ _ _ Hrun).
Qed.

(** X4: whatever the path and the outcome, [resolve_include] keeps the
    members the include set had, in their order, keeps its paths, and every
    resource it adds wraps a member of a to-many relationship of the
    resource the call was made on: nothing further away is ever added. *)
Theorem resolve_include_adds_direct_members (h : gmap loc (gmap string value))
  (resource : Resource) (path : path_arg) (inc inc' : Included)
  (r : result unit) :
  resolve_include h resource path inc = (r, inc') ->
  paths inc' = paths inc
  /\ exists added,
       members inc' = members inc ++ added
       /\ Forall (direct_member h resource) added.
Proof. unfold resolve_include. apply resolve_include_at_grows. Qed.

(** The path "tags.categories" on article 5: "categories" is read off the
    article, which has none, and tag 2 is added. *)
Lemma resolve_include_adds_direct_members_example :
  resolve_include Blog.objects (mkResource Blog.ArticleResource (VRef 5%positive))
    (PathStr "tags.categories") (mkIncluded ["tags.categories"] [])
  = (Ok tt, mkIncluded ["tags.categories"]
                       [mkResource Blog.TagResource (VRef 2%positive)])
  /\ exists added,
       [mkResource Blog.TagResource (VRef 2%positive)] = [] ++ added
       /\ Forall (direct_member Blog.objects
                    (mkResource Blog.ArticleResource (VRef 5%positive))) added.
Proof.
  split; [reflexivity|].
  exact (proj2 (resolve_include_adds_direct_members Blog.objects
                  (mkResource Blog.ArticleResource (VRef 5%positive))
                  (PathStr "tags.categories") (mkIncluded ["tags.categories"] [])
                  (mkIncluded ["tags.categories"]
                              [mkResource Blog.TagResource (VRef 2%positive)])
                  (Ok tt) eq_refl)).
Defined.

(** ** Links *)

(** X5: with a request, [get_self_link] is [request.build_absolute_uri] of
    the link it returns without one, and it fails exactly when that one
    fails, with the same exception. *)
Theorem get_self_link_with_request `{Router} (h : gmap loc (gmap string value))
  (self : Resource) (rq : request) :
  get_self_link h self (Some rq)
  = match get_self_link h self None with
    | Ok u => Ok (build_absolute_uri rq u)
    | Raise e => Raise e
    end.
Proof.
  unfold get_self_link.
  destruct (resolve h (r_obj self) (r_cls self) ([], VNone)) as [[[]|e] [kw o]];
    [|reflexivity].
  destruct (bound_viewset (r_cls self)); [|reflexivity].
  destruct (reverse _ kw); reflexivity.
Qed.

(** X6: the link of a resource whose class is bound to a viewset without a
    parent is the reversal of "<base_name>-detail" with the one keyword
    argument that maps the lookup field to the resource's own id, as a
    string. *)
Theorem get_self_link_root `{Router} (h : gmap loc (gmap string value))
  (self : Resource) (viewset : viewset) (i : value) :
  bound_viewset (r_cls self) = Some viewset ->
  parent viewset = None ->
  resource_id h self = Ok i ->
  get_self_link h self None
  = match reverse (base_name (url viewset) +:+ "-detail")
                  [(lookup_field (url viewset), str i)] with
    | Some u => Ok u
    | None => Raise NoReverseMatch
    end.
Proof. apply get_self_link_single_level. Qed.

Lemma get_self_link_root_example :
  get_self_link (H := Club.router) Club.objects
    (mkResource Club.OrgResource (VRef 10%positive)) None
  = Ok "/1".
Proof.
  exact (get_self_link_root (H := Club.router) Club.objects
           (mkResource Club.OrgResource (VRef 10%positive))
           (Viewset None (Url "org" "org")) (VInt 1) eq_refl eq_refl eq_refl).
Defined.

Lemma dict_set_absent {A} (k : string) (a : A) (d : dict A) :
  k ∉ dict_keys d -> dict_set k a d = d ++ [(k, a)].
Proof.
  induction d as [|[k' a'] d IH]; simpl; intros Hk.
  - reflexivity.
  - apply not_elem_of_cons in Hk. destruct Hk as [Hne Hk].
    rewrite decide_False by assumption. rewrite (IH Hk). reflexivity.
Qed.

Lemma resolve_level_ok (h : gmap loc (gmap string value)) (self_obj : value)
  (r : resource_class) (viewset : viewset) (s s' : dict string * value) :
  resolve_level h self_obj r viewset s = (Ok tt, s') ->
  exists i, fst s' = dict_set (lookup_field (url viewset)) (str i) (fst s).
Proof.
  unfold resolve_level, bind, gets, ret, lift, modify, resource_id. simpl.
  intros Hr. repeat case_match; simplify_eq; simpl; eauto.
Qed.

(** The keys of [kwargs] after the loop over the levels. *)
Lemma resolve_levels_keys (h : gmap loc (gmap string value)) (self_obj : value)
  (levels : list (resource_class * viewset)) :
  forall (s s' : dict string * value),
    NoDup (dict_keys (fst s) ++ map (fun rv => lookup_field (url (snd rv))) levels) ->
    for_each levels (fun rv => resolve_level h self_obj (fst rv) (snd rv)) s
    = (Ok tt, s') ->
    dict_keys (fst s')
    = dict_keys (fst s) ++ map (fun rv => lookup_field (url (snd rv))) levels.
Proof.
  induction levels as [|[c v] levels IH]; intros s s' Hnd; simpl.
  - intros [= <-]. rewrite app_nil_r. reflexivity.
  - unfold bind.
    destruct (resolve_level h self_obj c v s) as [[[]|e] s1] eqn:E; [|discriminate].
    destruct (resolve_level_ok _ _ _ _ _ _ E) as [i Hi]. intros Hrest.
    simpl in Hnd.
    assert (Habs : lookup_field (url v) ∉ dict_keys (fst s)).
    { apply NoDup_app in Hnd. destruct Hnd as (_ & Hdisj & _).
      intros Hin. apply (Hdisj _ Hin). left. }
    rewrite (dict_set_absent _ _ _ Habs) in Hi.
    assert (Hk1 : dict_keys (fst s1) = dict_keys (fst s) ++ [lookup_field (url v)]).
    { rewrite Hi. unfold dict_keys. rewrite map_app. reflexivity. }
    rewrite (IH s1 s'); [|rewrite Hk1, <- app_assoc; exact Hnd|exact Hrest].
    rewrite Hk1, <- app_assoc. reflexivity.
Qed.

(** X7: when the lookup fields along the viewsets of a class are distinct,
    a link that [get_self_link] returns is the reversal of
    "<base_name>-detail" of the class's own viewset with keyword arguments
    whose keys are those lookup fields, root first. *)
Theorem get_self_link_kwargs_order `{Router} (h : gmap loc (gmap string value))
  (self : Resource) (req : option request) (u : string) :
  NoDup (chain_fields (r_cls self)) ->
  get_self_link h self req = Ok u ->
  exists kwargs viewset u0,
    bound_viewset (r_cls self) = Some viewset
    /\ dict_keys kwargs = chain_fields (r_cls self)
    /\ reverse (base_name (url viewset) +:+ "-detail") kwargs = Some u0
    /\ u = match req with
           | Some rq => build_absolute_uri rq u0
           | None => u0
           end.
Proof.
  intros Hnd. unfold get_self_link.
  destruct (chain_bound (r_cls self)) eqn:Hc;
    [|rewrite (resolve_unbound _ _ _ Hc); discriminate].
  rewrite (resolve_bound _ _ _ Hc).
  destruct (for_each (chain (r_cls self)) _ _) as [[[]|e] [kw o]] eqn:E;
    [|discriminate].
  pose proof (resolve_levels_keys h (r_obj self) (chain (r_cls self))
                ([], VNone) (kw, o) Hnd E) as Hkeys. simpl in Hkeys.
  destruct (bound_viewset (r_cls self)) as [viewset|]; [|discriminate].
  destruct (reverse _ kw) as [u0|] eqn:Hrev; [|discriminate].
  intros Hu. exists kw, viewset, u0. repeat split; try assumption.
  destruct req; congruence.
Qed.

Lemma get_self_link_kwargs_order_example :
  chain_fields Tree.FolderResource = ["root"; "folder"]
  /\ get_self_link (H := Club.router) Tree.objects
       (mkResource Tree.FolderResource (VRef 20%positive))
       (Some Tree.request_at_host)
     = Ok "https://example.org/1/2"
  /\ exists kwargs viewset u0,
       bound_viewset Tree.FolderResource = Some viewset
       /\ dict_keys kwargs = chain_fields Tree.FolderResource
       /\ reverse (Router := Club.router) (base_name (url viewset) +:+ "-detail") kwargs
          = Some u0
       /\ "https://example.org/1/2" = build_absolute_uri Tree.request_at_host u0.
Proof.
  split; [reflexivity|]. split; [reflexivity|].
  apply (get_self_link_kwargs_order (H := Club.router) Tree.objects
           (mkResource Tree.FolderResource (VRef 20%positive))
           (Some Tree.request_at_host) "https://example.org/1/2").
  - apply (bool_decide_unpack _). reflexivity.
  - reflexivity.
Defined.

(** ** The document *)

(** A document [serializable] returns, spelled out. *)
Lemma serializable_shape `{Router} (h : gmap loc (gmap string value))
  (self : Resource) (req : option request) (inc inc' : option Included)
  (out : dict doc) :
  serializable h self req inc = (Ok out, inc') ->
  exists attrs rels i,
    serializable_attributes h (r_obj self) (attributes (r_cls self)) [] = Ok attrs
    /\ serializable_relationships h (r_obj self) (relationships (r_cls self)) []
       = Ok rels
    /\ resource_id h self = Ok i
    /\ exists links,
         match bound_viewset (r_cls self) with
         | Some _ => exists link, get_self_link h self req = Ok link
                                  /\ links = [("links", DDict [("self", DVal (VStr link))])]
         | None => links = []
         end
         /\ out = [("attributes", DDict attrs)] ++ links
                  ++ [("type", DVal (VStr (api_type (r_cls self))));
                      ("id", DVal (VStr (str i)))]
                  ++ match rels with
                     | [] => []
                     | _ => [("relationships", DDict rels)]
                     end.
Proof.
  unfold serializable, bind, lift, ret, get_identifier, rbind.
  destruct (serializable_attributes _ _ _ _) as [attrs|] eqn:Ea; [|discriminate].
  destruct (serializable_relationships _ _ _ _) as [rels|] eqn:Er; [|discriminate].
  intros Hrun. exists attrs, rels.
  destruct inc as [i0|];
    [destruct (for_each (paths i0) _ i0) as [[[]|] i1]; [|discriminate]|];
    (destruct (bound_viewset (r_cls self));
       [destruct (get_self_link h self req) as [link|]; [|discriminate]|]);
    (destruct (resource_id h self) as [i|]; [|discriminate]);
    exists i; (split; [reflexivity|]); (split; [reflexivity|]);
    (split; [reflexivity|]);
    eexists; (split; [first [eexists; split; reflexivity | reflexivity]|]);
    destruct rels; simplify_eq; reflexivity.
Qed.

Lemma dict_set_nonempty {A} (k : string) (a : A) (d : dict A) :
  dict_set k a d <> [].
Proof. destruct d as [|[k' a'] d]; simpl; [|destruct (decide (k = k'))]; discriminate. Qed.

Lemma serializable_relationships_nonempty (h : gmap loc (gmap string value))
  (obj : value) (rels : dict relationship) :
  forall acc out,
    serializable_relationships h obj rels acc = Ok out ->
    (rels <> [] \/ acc <> []) -> out <> [].
Proof.
  induction rels as [|[k rel] rels IH]; intros acc out; simpl.
  - intros [= <-] [Hne|Hne]; congruence.
  - unfold rbind. destruct (serializable_relationship h obj k rel); [|discriminate].
    intros Hrun _. apply (IH _ _ Hrun). right. apply dict_set_nonempty.
Qed.

(** X8: the document of a successful [serializable] has the keys
    "attributes", then "links" when the class is bound to a viewset, then
    "type" and "id", then "relationships" when the class declares any
    relationship, in this order and no others. *)
Theorem serializable_keys `{Router} (h : gmap loc (gmap string value))
  (self : Resource) (req : option request) (inc inc' : option Included)
  (out : dict doc) :
  serializable h self req inc = (Ok out, inc') ->
  dict_keys out = document_keys (r_cls self).
Proof.
  intros Hrun.
  destruct (serializable_shape _ _ _ _ _ _ Hrun)
    as (attrs & rels & i & _ & Hrels & _ & links & Hlinks & ->).
  unfold document_keys, dict_keys. rewrite !map_app.
  assert (Hl : map fst links
               = match bound_viewset (r_cls self) with
                 | Some _ => ["links"]
                 | None => []
                 end).
  { destruct (bound_viewset (r_cls self)).
    - destruct Hlinks as (link & _ & ->). reflexivity.
    - subst links. reflexivity. }
  rewrite Hl. simpl. do 3 f_equal.
  destruct (relationships (r_cls self)) as [|kr rs] eqn:Hdecl.
  - simpl in Hrels. injection Hrels as <-. reflexivity.
  - assert (Hne : rels <> []).
    { apply (serializable_relationships_nonempty h (r_obj self) (kr :: rs) [] rels Hrels).
      left. discriminate. }
    destruct rels; [congruence|reflexivity].
Qed.

Lemma serializable_keys_examples :
  (exists out,
     serializable (H := Club.router) Blog.objects
       (mkResource Blog.ArticleResource (VRef 1%positive)) None None = (Ok out, None)
     /\ dict_keys out = ["attributes"; "type"; "id"; "relationships"])
  /\ (exists out,
        serializable (H := Club.router) Club.objects
          (mkResource Club.OrgResource (VRef 10%positive)) None None = (Ok out, None)
        /\ dict_keys out = ["attributes"; "links"; "type"; "id"]).
Proof.
  split; eexists; (split; [reflexivity|]).
  - exact (serializable_keys (H := Club.router) Blog.objects
             (mkResource Blog.ArticleResource (VRef 1%positive)) None None None _
             eq_refl).
  - exact (serializable_keys (H := Club.router) Club.objects
             (mkResource Club.OrgResource (VRef 10%positive)) None None None _
             eq_refl).
Defined.

(** X9: the "type" and "id" of the document are those of
    [get_identifier]: the class's [api_type] and the resource's id as a
    string. *)
Theorem serializable_identifier `{Router} (h : gmap loc (gmap string value))
  (self : Resource) (req : option request) (inc inc' : option Included)
  (out : dict doc) :
  serializable h self req inc = (Ok out, inc') ->
  exists i,
    resource_id h self = Ok i
    /\ get_identifier h self
       = Ok [("type", DVal (VStr (api_type (r_cls self))));
             ("id", DVal (VStr (str i)))]
    /\ dict_get "type" out = Some (DVal (VStr (api_type (r_cls self))))
    /\ dict_get "id" out = Some (DVal (VStr (str i))).
Proof.
  intros Hrun.
  destruct (serializable_shape _ _ _ _ _ _ Hrun)
    as (attrs & rels & i & _ & _ & Hi & links & Hlinks & ->).
  exists i. split; [exact Hi|]. split.
  - unfold get_identifier, rbind. rewrite Hi. reflexivity.
  - destruct (bound_viewset (r_cls self)).
    + destruct Hlinks as (link & _ & ->). split; reflexivity.
    + subst links. split; reflexivity.
Qed.

Lemma serializable_identifier_example :
  exists out,
    serializable (H := Club.router) Blog.objects
      (mkResource Blog.ArticleResource (VRef 5%positive)) None None = (Ok out, None)
    /\ dict_get "type" out = Some (DVal (VStr "article"))
    /\ dict_get "id" out = Some (DVal (VStr "5")).
Proof.
  eexists. split; [reflexivity|].
  destruct (serializable_identifier (H := Club.router) Blog.objects
              (mkResource Blog.ArticleResource (VRef 5%positive)) None None None _
              eq_refl) as (i & Hi & _ & Ht & Hid).
  vm_compute in Hi. injection Hi as <-. split; [exact Ht|exact Hid].
Defined.

(** With distinct names, the attribute loop appends one entry per name. *)
Lemma serializable_attributes_append (h : gmap loc (gmap string value))
  (obj : value) (names : list string) :
  forall (acc attrs : dict doc),
    NoDup (dict_keys acc ++ names) ->
    serializable_attributes h obj names acc = Ok attrs ->
    dict_keys attrs = dict_keys acc ++ names
    /\ forall k d, (k, d) ∈ attrs ->
         (k, d) ∈ acc \/ exists v, read_attr h obj k = Ok v /\ d = DVal v.
Proof.
  induction names as [|a names IH]; intros acc attrs Hnd; simpl.
  - intros [= <-]. rewrite app_nil_r. auto.
  - unfold rbind. destruct (read_attr h obj a) as [va|e] eqn:Ea; [|discriminate].
    assert (Habs : a ∉ dict_keys acc).
    { apply NoDup_app in Hnd. destruct Hnd as (_ & Hdisj & _).
      intros Hin. apply (Hdisj _ Hin). left. }
    rewrite (dict_set_absent _ _ _ Habs). intros Hrun.
    destruct (IH (acc ++ [(a, DVal va)]) attrs) as [Hkeys Hvals].
    + unfold dict_keys. rewrite map_app. simpl. rewrite <- app_assoc. exact Hnd.
    + exact Hrun.
    + split.
      * rewrite Hkeys. unfold dict_keys. rewrite map_app, <- app_assoc. reflexivity.
      * intros k d Hin. destruct (Hvals k d Hin) as [Hacc|Hv]; [|right; exact Hv].
        apply elem_of_app in Hacc. destruct Hacc as [Hacc|Hnew]; [left; exact Hacc|].
        apply list_elem_of_singleton in Hnew. injection Hnew as -> ->.
        right. eauto.
Qed.

Lemma serializable_relationships_append (h : gmap loc (gmap string value))
  (obj : value) (rels : dict relationship) :
  forall (acc out : dict doc),
    NoDup (dict_keys acc ++ dict_keys rels) ->
    serializable_relationships h obj rels acc = Ok out ->
    dict_keys out = dict_keys acc ++ dict_keys rels.
Proof.
  induction rels as [|[k rel] rels IH]; intros acc out Hnd; simpl.
  - intros [= <-]. rewrite app_nil_r. reflexivity.
  - unfold rbind. destruct (serializable_relationship h obj k rel) as [d|e];
      [|discriminate].
    assert (Habs : k ∉ dict_keys acc).
    { apply NoDup_app in Hnd. destruct Hnd as (_ & Hdisj & _).
      intros Hin. apply (Hdisj _ Hin). left. }
    rewrite (dict_set_absent _ _ _ Habs). intros Hrun.
    rewrite (IH (acc ++ [(k, d)]) out).
    + unfold dict_keys. rewrite map_app, <- app_assoc. reflexivity.
    + unfold dict_keys. rewrite map_app. simpl. rewrite <- app_assoc. exact Hnd.
    + exact Hrun.
Qed.

(** X10: in the document, the attributes come in the order the class lists
    them, each with the value read off the object, and the relationships
    come in the order the class declares them (the names of each being
    distinct). *)
Theorem serializable_declared_order `{Router} (h : gmap loc (gmap string value))
  (self : Resource) (req : option request) (inc inc' : option Included)
  (out : dict doc) :
  NoDup (attributes (r_cls self)) ->
  NoDup (dict_keys (relationships (r_cls self))) ->
  serializable h self req inc = (Ok out, inc') ->
  (exists attrs,
     dict_get "attributes" out = Some (DDict attrs)
     /\ dict_keys attrs = attributes (r_cls self)
     /\ forall k d, (k, d) ∈ attrs ->
          exists v, read_attr h (r_obj self) k = Ok v /\ d = DVal v)
  /\ (relationships (r_cls self) <> [] ->
      exists rels,
        dict_get "relationships" out = Some (DDict rels)
        /\ dict_keys rels = dict_keys (relationships (r_cls self))).
Proof.
  intros Hnda Hndr Hrun.
  destruct (serializable_ok _ _ _ _ _ _ Hrun) as (attrs & rels & Ha & Hr & Hoa & Hor).
  split.
  - exists attrs. split; [exact Hoa|].
    destruct (serializable_attributes_append _ _ _ [] attrs Hnda Ha) as [Hk Hv].
    split; [exact Hk|]. intros k d Hin.
    destruct (Hv k d Hin) as [Hnil|Hok]; [inversion Hnil|exact Hok].
  - intros Hdecl. exists rels. split.
    + apply Hor.
      apply (serializable_relationships_nonempty _ _ _ _ _ Hr). left. exact Hdecl.
    + exact (serializable_relationships_append _ _ _ [] rels Hndr Hr).
Qed.

Lemma serializable_declared_order_example :
  exists out attrs rels,
    serializable (H := Club.router) Blog.objects
      (mkResource Blog.ArticleRowResource (VRef 1%positive)) None None
    = (Ok out, None)
    /\ dict_get "attributes" out = Some (DDict attrs)
    /\ dict_keys attrs = ["title"; "author"]
    /\ serializable (H := Club.router) Blog.objects
         (mkResource Blog.ArticleResource (VRef 1%positive)) None None
       = (Ok [("attributes", DDict [("title", DVal (VStr "Old"))]);
              ("type", DVal (VStr "article")); ("id", DVal (VStr "1"));
              ("relationships", DDict rels)], None)
    /\ dict_keys rels = ["author"; "tags"; "categories"].
Proof.
  destruct (serializable_declared_order (H := Club.router) Blog.objects
              (mkResource Blog.ArticleRowResource (VRef 1%positive)) None None None
              _ ltac:(apply (bool_decide_unpack _); reflexivity)
              ltac:(apply (bool_decide_unpack _); reflexivity) eq_refl)
    as [(attrs & Hoa & Hka & _) _].
  destruct (serializable_declared_order (H := Club.router) Blog.objects
              (mkResource Blog.ArticleResource (VRef 1%positive)) None None None
              _ ltac:(apply (bool_decide_unpack _); reflexivity)
              ltac:(apply (bool_decide_unpack _); reflexivity) eq_refl)
    as [_ Hrels].
  destruct (Hrels ltac:(discriminate)) as (rels & Hor & Hkr).
  injection Hor as <-.
  eexists. exists attrs. eexists.
  split; [reflexivity|]. split; [exact Hoa|]. split; [exact Hka|].
  split; [reflexivity|exact Hkr].
Defined.

Lemma identifiers_of_members (h : gmap loc (gmap string value))
  (cls : resource_class) (qs : list loc) :
  forall data,
    identifiers_of h cls qs = Ok data ->
    Forall2 (fun v d => exists i, get_identifier h (mkResource cls (VRef v)) = Ok i
                                  /\ d = DDict i) qs data.
Proof.
  induction qs as [|v qs IH]; intros data; simpl.
  - intros [= <-]. constructor.
  - unfold rbind at 1.
    destruct (get_identifier h (mkResource cls (VRef v))) as [i|] eqn:Ei;
      [|discriminate].
    unfold rbind. destruct (identifiers_of h cls qs) as [ids|]; [|discriminate].
    intros [= <-]. constructor; [eauto|]. apply IH. reflexivity.
Qed.

(** X11: in the document, a declared to-many relationship has a "data"
    list with one entry per member of the collection, in the collection's
    order, each the identifier of that member in the related class; an
    empty collection gives the empty list. *)
Theorem serializable_to_many `{Router} (h : gmap loc (gmap string value))
  (self : Resource) (req : option request) (inc inc' : option Included)
  (out : dict doc) (name : string) (rel : relationship) :
  NoDup (dict_keys (relationships (r_cls self))) ->
  dict_get name (relationships (r_cls self)) = Some rel ->
  collection rel = true ->
  serializable h self req inc = (Ok out, inc') ->
  exists qs rels data,
    read_attr h (r_obj self) name = Ok (VManager qs)
    /\ dict_get "relationships" out = Some (DDict rels)
    /\ dict_get name rels = Some (DDict [("data", DList data)])
    /\ Forall2 (fun v d =>
                  exists i,
                    get_identifier h (mkResource (resource_class_of rel) (VRef v)) = Ok i
                    /\ d = DDict i) qs data.
Proof.
  intros Hnd Hrel Hcol Hrun.
  destruct (serializable_ok _ _ _ _ _ _ Hrun) as (attrs & rels & _ & Hrels & _ & Hout).
  pose proof (serializable_relationships_get _ _ _ Hnd _ _ Hrels name) as Hget.
  rewrite Hrel in Hget. destruct Hget as (d & Hd & Hname).
  assert (Hne : rels <> []) by (intros ->; discriminate).
  unfold serializable_relationship in Hd. rewrite Hcol in Hd. unfold rbind in Hd.
  destruct (read_attr h (r_obj self) name) as [[| | | |qs|]|e]; try discriminate.
  destruct (identifiers_of h (resource_class_of rel) qs) as [data|] eqn:Eids;
    [|discriminate].
  injection Hd as <-.
  exists qs, rels, data. split; [reflexivity|]. split; [exact (Hout Hne)|].
  split; [exact Hname|]. exact (identifiers_of_members _ _ _ _ Eids).
Qed.

Lemma serializable_to_many_example :
  exists out rels,
    serializable (H := Club.router) Blog.objects
      (mkResource Blog.ArticleResource (VRef 5%positive)) None None = (Ok out, None)
    /\ dict_get "relationships" out = Some (DDict rels)
    /\ dict_get "tags" rels
       = Some (DDict [("data", DList [DDict [("type", DVal (VStr "tag"));
                                             ("id", DVal (VStr "1"))]])])
    /\ dict_get "categories" rels = Some (DDict [("data", DList [])]).
Proof.
  destruct (serializable_to_many (H := Club.router) Blog.objects
              (mkResource Blog.ArticleResource (VRef 5%positive)) None None None
              _ "tags" (Relationship Blog.TagResource true None)
              ltac:(apply (bool_decide_unpack _); reflexivity)
              eq_refl eq_refl eq_refl)
    as (qs & rels & data & Hqs & Hout & Htags & Hall).
  eexists. exists rels. split; [reflexivity|]. split; [exact Hout|].
  injection Hout as <-. split; reflexivity.
Defined.

Lemma serializable_attributes_unreadable (h : gmap loc (gmap string value))
  (obj : value) (n1 n2 : list string) (a : string) :
  (forall b, b ∈ n1 -> exists v, read_attr h obj b = Ok v) ->
  (forall v, read_attr h obj a <> Ok v) ->
  forall acc, serializable_attributes h obj (n1 ++ a :: n2) acc
              = Raise (AttributeError a).
Proof.
  intros Hn1 Ha. induction n1 as [|b n1 IH]; intros acc; simpl; unfold rbind.
  - destruct (read_attr h obj a) as [v|e] eqn:E; [exfalso; exact (Ha v eq_refl)|].
    rewrite (read_attr_raises _ _ _ _ E). reflexivity.
  - destruct (Hn1 b ltac:(left)) as [v ->].
    apply IH. intros b' Hb'. apply Hn1. right. exact Hb'.
Qed.

(** X12: when the object lacks one of the attributes the class lists,
    [serializable] raises AttributeError for the first such attribute; no
    document is returned and the include set is not touched, whatever paths
    it holds. *)
Theorem serializable_unreadable_attribute `{Router}
  (h : gmap loc (gmap string value)) (self : Resource) (req : option request)
  (inc : option Included) (n1 n2 : list string) (a : string) :
  attributes (r_cls self) = n1 ++ a :: n2 ->
  (forall b, b ∈ n1 -> exists v, read_attr h (r_obj self) b = Ok v) ->
  (forall v, read_attr h (r_obj self) a <> Ok v) ->
  serializable h self req inc = (Raise (AttributeError a), inc).
Proof.
  intros Hattrs Hn1 Ha. unfold serializable, bind at 1, lift at 1.
  rewrite Hattrs, (serializable_attributes_unreadable _ _ _ _ _ Hn1 Ha).
  reflexivity.
Qed.

Lemma serializable_unreadable_attribute_example :
  serializable (H := Club.router) Blog.objects
    (mkResource Legacy.TitledTagResource (VRef 2%positive)) None
    (Some (mkIncluded ["group"] []))
  = (Raise (AttributeError "title"), Some (mkIncluded ["group"] [])).
Proof.
  apply (serializable_unreadable_attribute (H := Club.router) Blog.objects
           (mkResource Legacy.TitledTagResource (VRef 2%positive)) None
           (Some (mkIncluded ["group"] [])) ["name"] [] "title" eq_refl).
  - intros b Hb. apply list_elem_of_singleton in Hb. subst b.
    eexists. reflexivity.
  - intros v. discriminate.
Defined.

(** X13: a resource that serializes without an include set, serialized
    with an include set whose first path starts with a name the class does
    not declare, raises SerializationError naming it; no document is
    returned and the include set is as it was. *)
Theorem serializable_undeclared_include `{Router}
  (h : gmap loc (gmap string value)) (self : Resource) (req : option request)
  (out : dict doc) (inc : Included) (p : string) (ps : list string) :
  serializable h self req None = (Ok out, None) ->
  paths inc = p :: ps ->
  dict_get (fst (split_dot p)) (relationships (r_cls self)) = None ->
  serializable h self req (Some inc)
  = (Raise (SerializationError (undeclared_message (fst (split_dot p)))), Some inc).
Proof.
  intros Hplain Hpaths Hnone.
  destruct (serializable_ok _ _ _ _ _ _ Hplain) as (attrs & rels & Ha & Hr & _).
  unfold serializable, bind, lift. rewrite Ha, Hr, Hpaths. simpl.
  unfold bind, resolve_include. cbn [path_size].
  rewrite resolve_include_at_str, Hnone. reflexivity.
Qed.

Lemma serializable_undeclared_include_example :
  serializable (H := Club.router) Blog.objects
    (mkResource Blog.ArticleResource (VRef 1%positive)) None
    (Some (mkIncluded ["ghost"; "tags"] []))
  = (Raise (SerializationError "'ghost' is not a valid relationship to include"),
     Some (mkIncluded ["ghost"; "tags"] [])).
Proof.
  exact (serializable_undeclared_include (H := Club.router) Blog.objects
           (mkResource Blog.ArticleResource (VRef 1%positive)) None _
           (mkIncluded ["ghost"; "tags"] []) "ghost" ["tags"]
           eq_refl eq_refl eq_refl).
Defined.

(** X14: the include set plays no part in the document: when
    [serializable] succeeds with an include set, it returns the document it
    returns without one, and the set it leaves is the one the loop over the
    paths built from it. *)
Theorem serializable_document_without_included `{Router}
  (h : gmap loc (gmap string value)) (self : Resource) (req : option request)
  (inc : Included) (inc' : option Included) (out : dict doc) :
  serializable h self req (Some inc) = (Ok out, inc') ->
  serializable h self req None = (Ok out, None)
  /\ exists inc1,
       inc' = Some inc1
       /\ for_each (paths inc) (fun path => resolve_include h self (PathStr path)) inc
          = (Ok tt, inc1).
Proof.
  unfold serializable, bind, lift, ret.
  destruct (serializable_attributes _ _ _ _) as [attrs|]; [|discriminate].
  destruct (serializable_relationships _ _ _ _) as [rels|]; [|discriminate].
  destruct (for_each (paths inc) _ inc) as [[[]|e] inc1]; [|discriminate].
  destruct (bound_viewset (r_cls self));
    [destruct (get_self_link h self req); [|discriminate]|];
    (destruct (get_identifier h self); [|discriminate]);
    destruct rels; intros [= <- <-]; (split; [reflexivity|]);
    exists inc1; split; reflexivity.
Qed.

Lemma serializable_document_without_included_example :
  exists out,
    serializable (H := Club.router) Blog.objects
      (mkResource Blog.ArticleResource (VRef 5%positive)) None
      (Some (mkIncluded ["tags.categories"] []))
    = (Ok out, Some (mkIncluded ["tags.categories"]
                                [mkResource Blog.TagResource (VRef 2%positive)]))
    /\ serializable (H := Club.router) Blog.objects
         (mkResource Blog.ArticleResource (VRef 5%positive)) None None
       = (Ok out, None).
Proof.
  eexists. split; [reflexivity|].
  exact (proj1 (serializable_document_without_included (H := Club.router)
                  Blog.objects (mkResource Blog.ArticleResource (VRef 5%positive))
                  None (mkIncluded ["tags.categories"] []) _ _ eq_refl)).
Defined.

(** ** What [populate] touches *)

Lemma write_attr_elsewhere (h : gmap loc (gmap string value)) (o l : loc)
  (a : string) (v : value) :
  l <> o -> write_attr o a v h !! l = h !! l.
Proof. intros Hne. unfold write_attr. apply lookup_insert_ne. congruence. Qed.

Lemma populate_attributes_elsewhere (cls : resource_class) (o : loc)
  (attrs : dict value) :
  forall (st st' : state) (r : result unit),
    for_each attrs (populate_attribute cls o) st = (r, st') ->
    frames st' = frames st
    /\ forall l, l <> o -> heap st' !! l = heap st !! l.
Proof.
  induction attrs as [|kv attrs IH]; intros st st' r; simpl.
  - intros [= <- <-]. auto.
  - unfold bind. rewrite populate_attribute_run.
    destruct (get_field (model cls) (fst kv)) as [f|].
    + intros Hrun. destruct (IH _ _ _ Hrun) as [Hfr Hh]. simpl in *.
      split; [exact Hfr|]. intros l Hl. rewrite (Hh l Hl).
      apply write_attr_elsewhere. exact Hl.
    + intros [= <- <-]. auto.
Qed.

(** One relationship step: other objects keep their attributes, and the
    frame of the call keeps its object. *)
Lemma populate_relationship_elsewhere `{Store} (cls : resource_class) (fid : nat)
  (o : loc) (kv : string * rel_data) (st st' : state) (r : result unit) :
  populate_relationship cls fid o kv st = (r, st') ->
  (forall l, l <> o -> heap st' !! l = heap st !! l)
  /\ (forall fr, frames st !! fid = Some fr ->
        exists fr', frames st' !! fid = Some fr' /\ fr_obj fr' = fr_obj fr).
Proof.
  unfold populate_relationship, lookup_field_of, found_ids,
    set_accessor_name, set_qs, setattr, bind, ret, raise, modify.
  intros Hrun. simpl in *.
  repeat (case_match; simpl in *; simplify_eq);
    (split;
     [ intros other Hother; try reflexivity;
       apply write_attr_elsewhere; exact Hother
     | intros fr0 Hfr0;
       rewrite ?list_lookup_alter, ?Hfr0, ?decide_True by reflexivity;
       simpl; eauto ]).
Qed.

Lemma populate_relationships_elsewhere `{Store} (cls : resource_class) (fid : nat)
  (o : loc) (rels : dict rel_data) :
  forall (st st' : state) (r : result unit),
    for_each rels (populate_relationship cls fid o) st = (r, st') ->
    (forall l, l <> o -> heap st' !! l = heap st !! l)
    /\ (forall fr, frames st !! fid = Some fr ->
          exists fr', frames st' !! fid = Some fr' /\ fr_obj fr' = fr_obj fr).
Proof.
  induction rels as [|kv rels IH]; intros st st' r; simpl.
  - intros [= <- <-]. eauto.
  - unfold bind.
    destruct (populate_relationship cls fid o kv st) as [[[]|e] s1] eqn:Ekv;
      destruct (populate_relationship_elsewhere _ _ _ _ _ _ _ Ekv) as [Hh1 Hf1].
    + intros Hrun. destruct (IH _ _ _ Hrun) as [Hh2 Hf2]. split.
      * intros l Hl. rewrite (Hh2 l Hl). exact (Hh1 l Hl).
      * intros fr Hfr. destruct (Hf1 fr Hfr) as (fr1 & Hfr1 & Ho1).
        destruct (Hf2 fr1 Hfr1) as (fr2 & Hfr2 & Ho2).
        exists fr2. split; [exact Hfr2|congruence].
    + intros [= <- <-]. auto.
Qed.

(** The start of a call: which object it works on, and its frame. *)
Lemma populate_begin_elsewhere (cls : resource_class) (data : payload)
  (obj : option loc) (st st' : state) (r : result (loc * nat)) :
  populate_begin cls data obj st = (r, st') ->
  exists o,
    match obj with
    | Some o' => o = o'
    | None => heap st !! o = None
    end
    /\ (forall l, l <> o -> heap st' !! l = heap st !! l)
    /\ (forall started, r = Ok started ->
          fst started = o
          /\ exists fr, frames st' !! snd started = Some fr /\ fr_obj fr = o).
Proof.
  unfold populate_begin, bind, ret, raise, new_frame, alloc.
  intros Hrun.
  exists (match obj with Some o' => o' | None => fresh (dom (heap st)) end).
  split; [|split].
  - destruct obj; [reflexivity|]. apply not_elem_of_dom. apply is_fresh.
  - intros other Hother.
    assert (Hstart : forall init : gmap string value,
              match obj with
              | Some _ => heap st
              | None => <[fresh (dom (heap st)) := init]> (heap st)
              end !! other = heap st !! other).
    { intros init. destruct obj; [reflexivity|].
      apply lookup_insert_ne. congruence. }
    destruct obj as [o'|]; simpl in Hrun;
      (destruct (p_attributes data) as [attrs|];
       [ match type of Hrun with
         | context [for_each attrs ?b ?s] =>
             destruct (for_each attrs b s) as [[[]|e] s1] eqn:Eattrs
         end;
         destruct (populate_attributes_elsewhere _ _ _ _ _ _ Eattrs) as [_ Hh];
         simpl in Hrun, Hh; injection Hrun as <- <-;
         rewrite (Hh other Hother); exact (Hstart (model_init (model cls)))
       | injection Hrun as <- <-; exact (Hstart (model_init (model cls))) ]).
  - intros [o1 fid] ->.
    destruct obj as [o'|]; simpl in Hrun;
      (destruct (p_attributes data) as [attrs|]; [|discriminate]);
      match type of Hrun with
      | context [for_each attrs ?b ?s] =>
          destruct (for_each attrs b s) as [[[]|e] s1] eqn:Eattrs; [|discriminate]
      end;
      destruct (populate_attributes_elsewhere _ _ _ _ _ _ Eattrs) as [Hfr _];
      simpl in Hrun, Hfr; injection Hrun as <- <- <-; simpl;
      (split; [reflexivity|]); rewrite Hfr;
      eexists; (split; [apply list_lookup_middle; reflexivity|reflexivity]).
Qed.

(** X15: a call of [populate], whatever its outcome, changes no object but
    the one it populates: the object passed in or, when none is passed, a
    new object that was not in the heap.  The resource it returns wraps that
    object in the class. *)
Theorem populate_touches_one_object `{Store} (cls : resource_class)
  (data : payload) (obj : option loc) (st st' : state) (r : result Resource) :
  populate cls data obj st = (r, st') ->
  exists o,
    match obj with
    | Some o' => o = o'
    | None => heap st !! o = None
    end
    /\ (forall l, l <> o -> heap st' !! l = heap st !! l)
    /\ (forall res, r = Ok res -> res = mkResource cls (VRef o)).
Proof.
  unfold populate. unfold bind at 1.
  destruct (populate_begin cls data obj st) as [[[o1 fid]|e] s0] eqn:Ebegin;
    destruct (populate_begin_elsewhere _ _ _ _ _ _ Ebegin) as (o & Hobj & Hh0 & Hof).
  - destruct (Hof _ eq_refl) as [Ho1 _]. simpl in Ho1. subst o1.
    unfold bind, ret. simpl.
    destruct (for_each _ _ s0) as [[[]|e] s1] eqn:Eloop;
      destruct (populate_relationships_elsewhere _ _ _ _ _ _ _ Eloop) as [Hh1 _];
      intros [= <- <-]; exists o; (split; [exact Hobj|]);
      (split; [intros l Hl; rewrite (Hh1 l Hl); exact (Hh0 l Hl)|]);
      intros res [= <-]; reflexivity.
  - intros [= <- <-]. exists o. split; [exact Hobj|]. split; [exact Hh0|].
    intros res [=].
Qed.

(** A failing call on article 1 leaves tag 2 as it was; a call without an
    object makes a new one. *)
Lemma populate_touches_one_object_examples :
  let failed := State (write_attr 1%positive "title" (VStr "New") Blog.objects)
                      [Frame 1%positive (Some "tags") (Some [2%positive])] in
  let o := fresh (dom Blog.objects) in
  let made := State (write_attr o "title" (VStr "New")
                       (<[o := model_init Blog.article_model]> Blog.objects))
                    [Frame o None None] in
  (populate (H := Blog.store) Blog.ArticleResource
     (Payload (Some [("title", VStr "New")])
              (Some [("tags", Blog.tag_ids ["1"; "9"])]))
     (Some 1%positive) Blog.world
   = (Raise (ValidationError [("tags", many_message "tags" ["9"])]), failed)
   /\ heap failed !! 2%positive = Blog.objects !! 2%positive)
  /\ (populate (H := Blog.store) Blog.ArticleResource
        (Payload (Some [("title", VStr "New")]) None) None Blog.world
      = (Ok (mkResource Blog.ArticleResource (VRef o)), made)
      /\ Blog.objects !! o = None
      /\ heap made !! 1%positive = Blog.objects !! 1%positive).
Proof.
  intros failed o made. split.
  - split; [reflexivity|].
    destruct (populate_touches_one_object (H := Blog.store) Blog.ArticleResource
                (Payload (Some [("title", VStr "New")])
                         (Some [("tags", Blog.tag_ids ["1"; "9"])]))
                (Some 1%positive) Blog.world failed _ eq_refl) as (o1 & Ho1 & Hh & _).
    apply Hh. rewrite Ho1. discriminate.
  - split; [reflexivity|].
    destruct (populate_touches_one_object (H := Blog.store) Blog.ArticleResource
                (Payload (Some [("title", VStr "New")]) None) None Blog.world
                made _ eq_refl) as (o1 & Hnew & Hh & Hres).
    specialize (Hres _ eq_refl). injection Hres as <-.
    split; [exact Hnew|]. apply Hh. intros Heq. rewrite <- Heq in Hnew.
    discriminate Hnew.
Defined.

(** ** How [populate] fails *)

(** X16: a payload without the "attributes" key makes [populate] raise
    KeyError for it, before anything is written to the object passed in and
    before any relationship of the payload is looked at. *)
Theorem populate_without_attributes `{Store} (cls : resource_class)
  (data : payload) (o : loc) (st : state) :
  p_attributes data = None ->
  exists st',
    populate cls data (Some o) st = (Raise (KeyError "attributes"), st')
    /\ heap st' = heap st.
Proof.
  intros Hnone. unfold populate, populate_begin, bind, ret, raise, new_frame.
  rewrite Hnone. simpl. eexists. split; reflexivity.
Qed.

Lemma populate_without_attributes_example :
  exists st',
    populate (H := Blog.store) Blog.ArticleResource
      (Payload None (Some [("author", DataOne (Identifier "author" "99"))]))
      (Some 1%positive) Blog.world
    = (Raise (KeyError "attributes"), st')
    /\ heap st' = Blog.objects.
Proof.
  exact (populate_without_attributes (H := Blog.store) Blog.ArticleResource
           (Payload None (Some [("author", DataOne (Identifier "author" "99"))]))
           1%positive Blog.world eq_refl).
Defined.

Lemma populate_attributes_resolve (cls : resource_class) (o : loc)
  (attrs : dict value) :
  (forall kv, kv ∈ attrs -> is_Some (get_field (model cls) (fst kv))) ->
  forall st, exists st', for_each attrs (populate_attribute cls o) st = (Ok tt, st').
Proof.
  induction attrs as [|kv attrs IH]; intros Hall st; simpl.
  - eexists. reflexivity.
  - unfold bind. rewrite populate_attribute_run.
    destruct (Hall kv ltac:(left)) as [f ->].
    apply IH. intros kv' Hin. apply Hall. right. exact Hin.
Qed.

(** X17: an attribute name of the payload that is not a field of the model
    makes [populate] raise FieldDoesNotExist for it; the attributes that
    come before it in the payload have been written to the object and stay
    written. *)
Theorem populate_unknown_attribute `{Store} (cls : resource_class)
  (data : payload) (o : loc) (st : state) (a1 a2 : dict value) (k : string)
  (v : value) :
  p_attributes data = Some (a1 ++ (k, v) :: a2) ->
  (forall kv, kv ∈ a1 -> is_Some (get_field (model cls) (fst kv))) ->
  get_field (model cls) k = None ->
  exists st',
    populate cls data (Some o) st = (Raise (FieldDoesNotExist k), st')
    /\ forall b1 b2 k1 v1 f1,
         a1 = b1 ++ (k1, v1) :: b2 ->
         get_field (model cls) k1 = Some f1 ->
         (forall k' v' f', (k', v') ∈ b2 -> get_field (model cls) k' = Some f' ->
                           f_attname f' <> f_attname f1) ->
         read_attr (heap st') (VRef o) (f_attname f1) = Ok v1.
Proof.
  intros Hattrs Hall Hk.
  destruct (populate_attributes_resolve cls o a1 Hall
              (State (heap st) (frames st ++ [Frame o None None]))) as [s1 Hs1].
  exists s1. split.
  - unfold populate, populate_begin, bind, ret, new_frame. rewrite Hattrs. simpl.
    rewrite (for_each_raise_at a1 a2 (k, v) _ _ s1 s1 (FieldDoesNotExist k) Hs1);
      [reflexivity|].
    rewrite populate_attribute_run. simpl. rewrite Hk. reflexivity.
  - intros b1 b2 k1 v1 f1 -> Hf1 Hlater.
    exact (populate_attributes_last _ _ _ _ _ _ _ _ _ Hf1 Hlater Hs1).
Qed.

Lemma populate_unknown_attribute_example :
  exists st',
    populate (H := Blog.store) Blog.ArticleResource
      (Payload (Some [("title", VStr "New"); ("colour", VStr "red")]) None)
      (Some 1%positive) Blog.world
    = (Raise (FieldDoesNotExist "colour"), st')
    /\ read_attr (heap st') (VRef 1%positive) "title" = Ok (VStr "New").
Proof.
  destruct (populate_unknown_attribute (H := Blog.store) Blog.ArticleResource
              (Payload (Some [("title", VStr "New"); ("colour", VStr "red")]) None)
              1%positive Blog.world [("title", VStr "New")] [] "colour" (VStr "red")
              eq_refl) as (st' & Hrun & Hkept).
  - intros kv Hin. apply list_elem_of_singleton in Hin. subst kv.
    eexists. reflexivity.
  - reflexivity.
  - exists st'. split; [exact Hrun|].
    apply (Hkept [] [] "title" (VStr "New") (Blog.column "title") eq_refl eq_refl).
    intros k' v' f' Hin. inversion Hin.
Defined.

(** X18: when the relationship loop reaches a name the class does not
    declare, [populate] raises KeyError for it and stops, in the state the
    earlier relationships left. *)
Theorem populate_undeclared_relationship `{Store} (cls : resource_class)
  (data : payload) (obj : option loc) (st st0 st1 : state) (o : loc) (fid : nat)
  (pre post : dict rel_data) (k : string) (v : rel_data) :
  populate_begin cls data obj st = (Ok (o, fid), st0) ->
  p_relationships data = Some (pre ++ (k, v) :: post) ->
  for_each pre (populate_relationship cls fid o) st0 = (Ok tt, st1) ->
  dict_get k (relationships cls) = None ->
  populate cls data obj st = (Raise (KeyError k), st1).
Proof.
  intros Hbegin Hrels Hpre Hnone.
  apply (populate_raises_at cls data obj st st0 st1 st1 o fid pre post (k, v) _
           Hbegin Hrels Hpre).
  unfold populate_relationship, bind, raise. simpl. rewrite Hnone. reflexivity.
Qed.

Lemma populate_undeclared_relationship_example :
  let st1 := State (write_attr 1%positive "author_id" (VRef 4%positive)
                      (write_attr 1%positive "title" (VStr "New") Blog.objects))
                   [Frame 1%positive None None] in
  populate (H := Blog.store) Blog.ArticleResource
    (Payload (Some [("title", VStr "New")])
             (Some [("author", DataOne (Identifier "author" "4"));
                    ("editor", DataOne (Identifier "author" "4"))]))
    (Some 1%positive) Blog.world
  = (Raise (KeyError "editor"), st1).
Proof.
  intros st1.
  exact (populate_undeclared_relationship (H := Blog.store) Blog.ArticleResource
           (Payload (Some [("title", VStr "New")])
                    (Some [("author", DataOne (Identifier "author" "4"));
                           ("editor", DataOne (Identifier "author" "4"))]))
           (Some 1%positive) Blog.world
           (State (write_attr 1%positive "title" (VStr "New") Blog.objects)
                  [Frame 1%positive None None])
           st1 1%positive 0%nat
           [("author", DataOne (Identifier "author" "4"))] []
           "editor" (DataOne (Identifier "author" "4"))
           eq_refl eq_refl eq_refl eq_refl).
Defined.

(** X19: a relationship payload of the wrong shape raises TypeError: one
    identifier where the class declares a collection (whatever the model's
    fields are), or a list of identifiers where the class declares a to-one
    relationship whose field resolves.  Nothing is written for it. *)
Theorem populate_wrong_shape `{Store} (cls : resource_class) (data : payload)
  (obj : option loc) (st st0 st1 : state) (o : loc) (fid : nat)
  (pre post : dict rel_data) (k : string) (v : rel_data) (rel : relationship) :
  populate_begin cls data obj st = (Ok (o, fid), st0) ->
  p_relationships data = Some (pre ++ (k, v) :: post) ->
  for_each pre (populate_relationship cls fid o) st0 = (Ok tt, st1) ->
  dict_get k (relationships cls) = Some rel ->
  (collection rel = true /\ exists i, v = DataOne i)
  \/ (collection rel = false /\ (exists l, v = DataMany l)
      /\ exists f to, get_field (model cls) (attr_of k rel) = Some f
                      /\ f_rel f = Some to) ->
  populate cls data obj st = (Raise TypeError, st1).
Proof.
  intros Hbegin Hrels Hpre Hrel Hshape.
  apply (populate_raises_at cls data obj st st0 st1 st1 o fid pre post (k, v) _
           Hbegin Hrels Hpre).
  unfold populate_relationship, lookup_field_of, bind, ret, raise. simpl.
  rewrite Hrel. simpl.
  destruct Hshape as [[Hcol [i ->]]|(Hcol & [l ->] & f & to & Hf & Hto)];
    rewrite Hcol; simpl.
  - reflexivity.
  - rewrite Hf. simpl. rewrite Hto. reflexivity.
Qed.

Lemma populate_wrong_shape_examples :
  let st1 := State (write_attr 1%positive "title" (VStr "New") Blog.objects)
                   [Frame 1%positive None None] in
  populate (H := Blog.store) Blog.ArticleResource
    (Payload (Some [("title", VStr "New")])
             (Some [("tags", DataOne (Identifier "tag" "1"))]))
    (Some 1%positive) Blog.world
  = (Raise TypeError, st1)
  /\ populate (H := Blog.store) Blog.ArticleResource
       (Payload (Some [("title", VStr "New")])
                (Some [("author", DataMany [Identifier "author" "4"])]))
       (Some 1%positive) Blog.world
     = (Raise TypeError, st1).
Proof.
  intros st1. split.
  - apply (populate_wrong_shape (H := Blog.store) Blog.ArticleResource
             (Payload (Some [("title", VStr "New")])
                      (Some [("tags", DataOne (Identifier "tag" "1"))]))
             (Some 1%positive) Blog.world st1 st1 1%positive 0%nat [] []
             "tags" (DataOne (Identifier "tag" "1"))
             (Relationship Blog.TagResource true None)
             eq_refl eq_refl eq_refl eq_refl).
    left. split; [reflexivity|]. eexists. reflexivity.
  - apply (populate_wrong_shape (H := Blog.store) Blog.ArticleResource
             (Payload (Some [("title", VStr "New")])
                      (Some [("author", DataMany [Identifier "author" "4"])]))
             (Some 1%positive) Blog.world st1 st1 1%positive 0%nat [] []
             "author" (DataMany [Identifier "author" "4"])
             (Relationship Blog.AuthorResource false None)
             eq_refl eq_refl eq_refl eq_refl).
    right. split; [reflexivity|]. split; [eexists; reflexivity|].
    do 2 eexists. split; reflexivity.
Defined.

(** ** Requested and found ids *)

(** X20: the requested ids are strings and are compared as they are with
    the [id] of each fetched object.  When no fetched object has a string
    for its [id] (integer primary keys), every requested id counts as
    missing, fetched or not: the call raises ValidationError listing all
    the requested ids. *)
Theorem populate_ids_that_are_not_strings `{Store} (cls : resource_class)
  (data : payload) (obj : option loc) (st st0 st1 : state) (o : loc) (fid : nat)
  (pre post : dict rel_data) (k : string) (ids : list identifier)
  (rel : relationship) (f : field) (related accessor_name : string)
  (found : list value) :
  populate_begin cls data obj st = (Ok (o, fid), st0) ->
  p_relationships data = Some (pre ++ (k, DataMany ids) :: post) ->
  for_each pre (populate_relationship cls fid o) st0 = (Ok tt, st1) ->
  dict_get k (relationships cls) = Some rel ->
  collection rel = true ->
  get_field (model cls) (attr_of k rel) = Some f ->
  related_of f = Some (related, accessor_name) ->
  let given : gset string := list_to_set (map id_id ids) in
  read_ids (heap st1) (filter_pk_in related given) = Ok found ->
  (forall v, v ∈ found -> forall s, v <> VStr s) ->
  ids <> [] ->
  exists st2,
    populate cls data obj st
    = (Raise (ValidationError [(k, many_message k (sorted (elements given)))]), st2).
Proof.
  intros Hbegin Hrels Hpre Hrel Hcol Hf Hra given Hfound Hnostr Hids.
  pose proof (populate_relationship_many cls fid o k ids rel f related
                accessor_name found st1 Hrel Hcol Hf Hra Hfound) as Hstep.
  fold given in Hstep.
  assert (Hall : difference given found = given).
  { apply set_eq. intros s. unfold difference. rewrite elem_of_filter.
    split; [tauto|]. intros Hs. split; [|exact Hs].
    intros Hin. exact (Hnostr _ Hin s eq_refl). }
  assert (Hne : given <> ∅).
  { destruct ids as [|i ids']; [congruence|].
    intros Hempty. assert (Hi : id_id i ∈ given).
    { unfold given. apply elem_of_list_to_set. left. }
    rewrite Hempty in Hi. exact (not_elem_of_empty _ Hi). }
  rewrite Hall in Hstep. rewrite decide_False in Hstep by exact Hne.
  eexists.
  exact (populate_raises_at cls data obj st st0 st1 _ o fid pre post _ _
           Hbegin Hrels Hpre Hstep).
Qed.

(** Tag "1" is in the legacy store, as object 6 with the integer id 1, and
    is reported missing. *)
Lemma populate_ids_that_are_not_strings_example :
  filter_pk_in (Store := Legacy.store) "Tag" {["1"]} = [6%positive]
  /\ exists st2,
       populate (H := Legacy.store) Blog.ArticleResource
         (Payload (Some []) (Some [("tags", Blog.tag_ids ["1"])]))
         (Some 1%positive) (State Legacy.objects [])
       = (Raise (ValidationError
                   [("tags", "Relationship " +:+ dquote +:+ "tags" +:+ dquote
                             +:+ " object IDs 1 do not exist")]), st2).
Proof.
  split; [reflexivity|].
  apply (populate_ids_that_are_not_strings (H := Legacy.store) Blog.ArticleResource
           (Payload (Some []) (Some [("tags", Blog.tag_ids ["1"])]))
           (Some 1%positive) (State Legacy.objects [])
           (State Legacy.objects [Frame 1%positive None None])
           (State Legacy.objects [Frame 1%positive None None])
           1%positive 0%nat [] [] "tags" (map (Identifier "tag") ["1"])
           (Relationship Blog.TagResource true None)
           (Field "tags" "tags" (Some "Tag") None) "Tag" "tags" [VInt 1]
           eq_refl eq_refl eq_refl eq_refl eq_refl eq_refl eq_refl eq_refl).
  - intros v Hin. apply list_elem_of_singleton in Hin. subst v. discriminate.
  - discriminate.
Defined.

(** X21: an empty "data" list for a to-many relationship never raises
    ValidationError, whatever the store answers: the step succeeds and
    leaves a closure on the object. *)
Theorem populate_empty_to_many `{Store} (cls : resource_class) (fid : nat)
  (o : loc) (k : string) (rel : relationship) (f : field)
  (related accessor_name : string) (found : list value) (st : state) :
  dict_get k (relationships cls) = Some rel ->
  collection rel = true ->
  get_field (model cls) (attr_of k rel) = Some f ->
  related_of f = Some (related, accessor_name) ->
  read_ids (heap st) (filter_pk_in related ∅) = Ok found ->
  exists st',
    populate_relationship cls fid o (k, DataMany []) st = (Ok tt, st')
    /\ read_attr (heap st') (VRef o) "save_relationships" = Ok (VFunc fid).
Proof.
  intros Hrel Hcol Hf Hra Hfound.
  pose proof (populate_relationship_many cls fid o k [] rel f related
                accessor_name found st Hrel Hcol Hf Hra Hfound) as Hstep.
  simpl in Hstep.
  assert (Hempty : difference (list_to_set [] : gset string) found = ∅).
  { apply set_eq. intros s. unfold difference. rewrite elem_of_filter. simpl.
    split; [intros [_ Hin]|intros Hin]; exfalso; exact (not_elem_of_empty _ Hin). }
  simpl in Hempty. rewrite Hempty in Hstep.
  rewrite decide_True in Hstep by reflexivity.
  eexists. split; [exact Hstep|]. simpl. apply read_attr_write_same.
Qed.

Lemma populate_empty_to_many_example :
  exists st',
    populate_relationship (H := Blog.store) Blog.ArticleResource 0 1%positive
      ("tags", DataMany []) (State Blog.objects [Frame 1%positive None None])
    = (Ok tt, st')
    /\ read_attr (heap st') (VRef 1%positive) "save_relationships" = Ok (VFunc 0).
Proof.
  exact (populate_empty_to_many (H := Blog.store) Blog.ArticleResource 0 1%positive
           "tags" (Relationship Blog.TagResource true None)
           (Field "tags" "tags" (Some "Tag") None) "Tag" "tags" []
           (State Blog.objects [Frame 1%positive None None])
           eq_refl eq_refl eq_refl eq_refl eq_refl).
Defined.

(** ** The deferred write *)

(** X22: after a successful [populate] whose last relationship is a to-many
    one, the collection on the object is still as it was.  Calling the
    [save_relationships] attached to the object without a [parent], whatever
    is passed in the first position, appends the targets that were fetched
    to the collection of the populated object. *)
Theorem populate_then_save_relationships `{Store} (cls : resource_class)
  (data : payload) (obj : option loc) (st st0 st1 : state) (o : loc) (fid : nat)
  (pre : dict rel_data) (k : string) (ids : list identifier)
  (rel : relationship) (f : field) (related accessor_name : string)
  (found : list value) (members : list loc) :
  populate_begin cls data obj st = (Ok (o, fid), st0) ->
  p_relationships data = Some (pre ++ [(k, DataMany ids)]) ->
  for_each pre (populate_relationship cls fid o) st0 = (Ok tt, st1) ->
  dict_get k (relationships cls) = Some rel ->
  collection rel = true ->
  get_field (model cls) (attr_of k rel) = Some f ->
  related_of f = Some (related, accessor_name) ->
  let given : gset string := list_to_set (map id_id ids) in
  let qs := filter_pk_in related given in
  read_ids (heap st1) qs = Ok found ->
  difference given found = ∅ ->
  accessor_name <> "save_relationships" ->
  read_attr (heap st1) (VRef o) accessor_name = Ok (VManager members) ->
  exists st2 st3,
    populate cls data obj st = (Ok (mkResource cls (VRef o)), st2)
    /\ read_attr (heap st2) (VRef o) accessor_name = Ok (VManager members)
    /\ (forall self, call_save_relationships o self VNone st2 = (Ok tt, st3))
    /\ read_attr (heap st3) (VRef o) accessor_name = Ok (VManager (members ++ qs)).
Proof.
  intros Hbegin Hrels Hpre Hrel Hcol Hf Hra given qs Hfound Hnone Hacc Hmembers.
  pose proof (populate_relationship_many cls fid o k ids rel f related
                accessor_name found st1 Hrel Hcol Hf Hra Hfound) as Hstep.
  fold given in Hstep. fold qs in Hstep.
  rewrite decide_True in Hstep by exact Hnone.
  destruct (populate_begin_elsewhere _ _ _ _ _ _ Hbegin) as (o0 & _ & _ & Hstarted).
  destruct (Hstarted _ eq_refl) as (_ & fr0 & Hfr0 & Hobj0). simpl in Hfr0.
  destruct (populate_relationships_elsewhere _ _ _ _ _ _ _ Hpre) as [_ Hframes].
  destruct (Hframes _ Hfr0) as (fr1 & Hfr1 & Hobj1).
  set (st2 := State (write_attr o "save_relationships" (VFunc fid) (heap st1))
                    (bound_frames fid accessor_name qs (frames st1))) in *.
  assert (Hm2 : read_attr (heap st2) (VRef o) accessor_name = Ok (VManager members)).
  { simpl. rewrite read_attr_write_other by (right; congruence). exact Hmembers. }
  assert (Hfr2 : frames st2 !! fid = Some (Frame o (Some accessor_name) (Some qs))).
  { simpl. rewrite (bound_frames_lookup _ _ _ _ _ Hfr1).
    assert (Ho : fr_obj fr1 = o).
    { rewrite Hobj1, Hobj0.
      destruct (Hstarted _ eq_refl) as (Ho0 & _). simpl in Ho0.
      destruct (Hstarted _ eq_refl) as (_ & fr' & Hfr' & Hobj').
      simpl in Hfr'. congruence. }
    rewrite Ho. reflexivity. }
  exists st2,
    (State (write_attr o accessor_name (VManager (members ++ qs)) (heap st2))
           (frames st2)).
  split; [|split; [exact Hm2|split]].
  - unfold populate, bind at 1. rewrite Hbegin. unfold bind at 1. rewrite Hrels.
    simpl. rewrite for_each_app. unfold bind at 1. rewrite Hpre. simpl.
    unfold bind at 1. rewrite Hstep. reflexivity.
  - intros self. unfold call_save_relationships, bind at 1, getattr.
    simpl heap at 1. simpl. rewrite read_attr_write_same.
    exact (save_appends fid self VNone st2 o o accessor_name qs members
             Hfr2 eq_refl Hm2).
  - simpl. apply read_attr_write_same.
Qed.

Lemma populate_then_save_relationships_example :
  exists st2 st3,
    populate (H := Blog.store) Blog.ArticleResource
      (Payload (Some [("title", VStr "New")])
               (Some [("author", DataOne (Identifier "author" "4"));
                      ("tags", Blog.tag_ids ["1"])]))
      (Some 1%positive) Blog.world
    = (Ok (mkResource Blog.ArticleResource (VRef 1%positive)), st2)
    /\ read_attr (heap st2) (VRef 1%positive) "tags" = Ok (VManager [])
    /\ (forall self, call_save_relationships 1%positive self VNone st2 = (Ok tt, st3))
    /\ read_attr (heap st3) (VRef 1%positive) "tags" = Ok (VManager [2%positive]).
Proof.
  exact (populate_then_save_relationships (H := Blog.store) Blog.ArticleResource
           (Payload (Some [("title", VStr "New")])
                    (Some [("author", DataOne (Identifier "author" "4"));
                           ("tags", Blog.tag_ids ["1"])]))
           (Some 1%positive) Blog.world
           (State (write_attr 1%positive "title" (VStr "New") Blog.objects)
                  [Frame 1%positive None None])
           (State (write_attr 1%positive "author_id" (VRef 4%positive)
                     (write_attr 1%positive "title" (VStr "New") Blog.objects))
                  [Frame 1%positive None None])
           1%positive 0%nat [("author", DataOne (Identifier "author" "4"))]
           "tags" (map (Identifier "tag") ["1"])
           (Relationship Blog.TagResource true None)
           (Field "tags" "tags" (Some "Tag") None) "Tag" "tags" [VStr "1"] []
           eq_refl eq_refl eq_refl eq_refl eq_refl eq_refl eq_refl eq_refl
           ltac:(vm_compute; reflexivity) ltac:(discriminate) eq_refl).
Defined.

(** ** Saving *)

(** X23: [Resource.save] does the same for an object that was never saved
    and for one that was, and whatever [create_kwargs] and [update_kwargs]
    are: once the object's [pk] has been read it runs the object's
    [full_clean] and then, only if that raised nothing, its [save]; the
    resource keeps the object it had. *)
Theorem resource_save_runs_clean_then_save `{Orm} (self : Resource)
  (create_kwargs update_kwargs : option (dict value)) (l : loc) (pk : value)
  (st : state) :
  r_obj self = VRef l ->
  read_attr (heap st) (VRef l) "pk" = Ok pk ->
  resource_save self create_kwargs update_kwargs st
  = match full_clean l st with
    | (Ok _, st1) =>
        match model_save l st1 with
        | (Ok _, st2) => (Ok self, st2)
        | (Raise e, st2) => (Raise e, st2)
        end
    | (Raise e, st1) => (Raise e, st1)
    end.
Proof.
  intros Hobj Hpk. destruct self as [cls obj]. simpl in Hobj. subst obj.
  unfold resource_save, create, update, obj_full_clean, obj_save, bind, ret,
    getattr. simpl. rewrite Hpk.
  destruct pk; destruct (full_clean l st) as [[[]|e1] st1]; try reflexivity;
    destruct (model_save l st1) as [[[]|e2] st2]; reflexivity.
Qed.

Lemma resource_save_runs_clean_then_save_examples :
  let draft := mkResource Blog.ArticleResource (VRef 30%positive) in
  let old := mkResource Blog.ArticleResource (VRef 1%positive) in
  resource_save (H := Desk.orm) draft (Some [("force", VInt 1)]) None
    (State Desk.objects [])
  = (Ok draft, State (write_attr 30%positive "pk" (VInt 100) Desk.objects) [])
  /\ resource_save (H := Desk.orm) old None (Some [("force", VInt 1)])
       (State Desk.objects [])
     = (Ok old, State Desk.objects []).
Proof.
  intros draft old. split.
  - exact (resource_save_runs_clean_then_save (H := Desk.orm) draft
             (Some [("force", VInt 1)]) None 30%positive VNone
             (State Desk.objects []) eq_refl eq_refl).
  - exact (resource_save_runs_clean_then_save (H := Desk.orm) old
             None (Some [("force", VInt 1)]) 1%positive (VInt 1)
             (State Desk.objects []) eq_refl eq_refl).
Defined.
